(** * core-kit: a shallow embedding of the service builder and its HTTP client

    The development follows the two Go sources:
    - [httpclient/client.go]: [HTTPClient.Send] and [getDoer];
    - [service.go]: the options, [NewService] with its built-in
      endpoints, the registration methods and [Run].

    Go values that cross an [interface{}] are modelled by [GoValue];
    Go's [error] by [error] with [None] for [nil]; maps by stdpp's
    [gmap].  Calls into the Go standard library (encoding/json, net/url,
    the default HTTP client) are gathered in the class [GoLib]: the
    theorems hold for every instance, and [RefLib] is the instance used
    to run the code on concrete inputs. *)

From Stdlib Require Import ZArith String Ascii List Bool Lia DecimalString.
From stdpp Require Import base option gmap strings list fin_maps sorting.

Set Warnings "-register-all".

Local Open Scope Z_scope.
Local Open Scope string_scope.
Local Open Scope list_scope.

(** ** Go values and errors *)

Module Go.

(** A dynamically typed Go value, as seen through [interface{}].
    Numbers are restricted to integers.  [VFunc] stands for the values
    encoding/json has no encoding for (functions, channels). *)
Inductive GoValue : Type :=
| VNil
| VBool (b : bool)
| VNum (n : Z)
| VString (s : string)
| VSlice (l : list GoValue)
| VMap (m : gmap string GoValue)
| VStruct (fields : list (string * GoValue))
| VFunc.

(** [strconv.Itoa]. *)
Definition itoa (n : Z) : string :=
  DecimalString.NilZero.string_of_int (Z.to_int n).

(** An argument of a [Printf]-style format. *)
Inductive FmtArg : Type :=
| ArgStr (s : string)
| ArgInt (n : Z)
| ArgBytes (b : string).

End Go.
Export Go.

(** ** Package apierror *)

Module apierror.

(** Modelled from the spec: package [apierror] is imported by the
    client but its file is not among the sources.  The spec describes a
    structured error with a code and a message, annotated by the client
    with the HTTP status code. *)
Record APIError : Type := mkAPIError {
  StatusCode : Z;
  Code : Z;
  Message : string
}.

Definition withStatusCode (e : APIError) (sc : Z) : APIError :=
  {| StatusCode := sc; Code := Code e; Message := Message e |}.

End apierror.

(** Modelled from the spec: [EntityNotFoundErr] is the distinguished
    "entity not found" value of package [apierror], and [ErrAPI] the
    structured error of that package used as an [error]; the file of the
    package is not among the sources.  The other constructors are Go's:
    an error raised by a library, the wrap that [errors.Wrap] and
    [errors.Wrapf] of github.com/pkg/errors build (the cause, the format
    and its arguments), [http.ErrServerClosed] and
    [context.DeadlineExceeded].  A nil error is [None]. *)
Inductive error : Type :=
| ErrLib (pkg msg : string)
| ErrWrap (cause : error) (format : string) (args : list FmtArg)
| EntityNotFoundErr
| ErrAPI (e : apierror.APIError)
| ErrServerClosed
| DeadlineExceeded.

Definition Wrap (err : error) (msg : string) : error := ErrWrap err msg [].
Definition Wrapf (err : error) (format : string) (args : list FmtArg) : error :=
  ErrWrap err format args.

(** The innermost error of a chain of wraps ([errors.Cause]). *)
Fixpoint Cause (e : error) : error :=
  match e with
  | ErrWrap c _ _ => Cause c
  | _ => e
  end.




Definition showArg (a : FmtArg) : string :=
  match a with
  | ArgStr s => s
  | ArgInt n => itoa n
  | ArgBytes b => b
  end.

(** [fmt.Sprintf] for the verbs the code uses ([%s] and [%v]): each
    verb takes the next argument. *)
Fixpoint Sprintf (format : string) (args : list FmtArg) : string :=
  match format with
  | EmptyString => EmptyString
  | String "%" (String v r) =>
      match args with
      | a :: args' => showArg a +:+ Sprintf r args'
      | [] => "%!" +:+ String v "(MISSING)" +:+ Sprintf r []
      end
  | String c r => String c (Sprintf r args)
  end.

(** The method [Error()]: a wrap prints its message, a colon and its
    cause. *)
Fixpoint errorString (e : error) : string :=
  match e with
  | ErrLib pkg msg => pkg +:+ ": " +:+ msg
  | ErrWrap c f args => Sprintf f args +:+ ": " +:+ errorString c
  | EntityNotFoundErr => "entity not found"
  | ErrAPI a => apierror.Message a
  | ErrServerClosed => "http: Server closed"
  | DeadlineExceeded => "context deadline exceeded"
  end.

(** ** net/http: headers, requests, responses *)

Module http.

Definition MethodGet := "GET".
Definition MethodPost := "POST".
Definition MethodPut := "PUT".
Definition MethodDelete := "DELETE".
Definition StatusOK : Z := 200.
Definition StatusNotFound : Z := 404.

Definition isUpper (c : ascii) : bool :=
  (65 <=? nat_of_ascii c)%nat && (nat_of_ascii c <=? 90)%nat.
Definition isLower (c : ascii) : bool :=
  (97 <=? nat_of_ascii c)%nat && (nat_of_ascii c <=? 122)%nat.
Definition isDigit (c : ascii) : bool :=
  (48 <=? nat_of_ascii c)%nat && (nat_of_ascii c <=? 57)%nat.
Definition toUpper (c : ascii) : ascii :=
  if isLower c then ascii_of_nat (nat_of_ascii c - 32) else c.
Definition toLower (c : ascii) : ascii :=
  if isUpper c then ascii_of_nat (nat_of_ascii c + 32) else c.

(** The token characters of RFC 7230. *)
Definition isTokenChar (c : ascii) : bool :=
  isUpper c || isLower c || isDigit c ||
  existsb (Ascii.eqb c) (list_ascii_of_string "!#$%&'*+-.^_`|~").

Fixpoint allChars (p : ascii -> bool) (s : string) : bool :=
  match s with
  | EmptyString => true
  | String c r => p c && allChars p r
  end.

Fixpoint canonicalize (upper : bool) (s : string) : string :=
  match s with
  | EmptyString => EmptyString
  | String c r =>
      String (if upper then toUpper c else toLower c)
             (canonicalize (Ascii.eqb c "-") r)
  end.

(** [textproto.CanonicalMIMEHeaderKey]: a key with a character that is
    not a token character is returned as it is. *)
Definition CanonicalMIMEHeaderKey (s : string) : string :=
  if allChars isTokenChar s then canonicalize true s else s.

(** [http.Header] is a [map[string][]string]. *)
Module Header.
Definition Add (h : gmap string (list string)) (key value : string)
  : gmap string (list string) :=
  let k := CanonicalMIMEHeaderKey key in
  <[k := default [] (h !! k) ++ [value]]> h.
Definition Set_ (h : gmap string (list string)) (key value : string)
  : gmap string (list string) :=
  <[CanonicalMIMEHeaderKey key := [value]]> h.
Definition Get (h : gmap string (list string)) (key : string) : string :=
  match h !! CanonicalMIMEHeaderKey key with
  | Some (v :: _) => v
  | _ => ""
  end.
End Header.

Record Request : Type := mkRequest {
  Method : string;
  URL : string;
  ReqHeader : gmap string (list string);
  ReqBody : string
}.

(** A response body: the bytes [ioutil.ReadAll] delivers and the error
    it ends with, if any. *)
Record ReadCloser : Type := mkBody {
  data : string;
  readErr : option error
}.

Record Response : Type := mkResponse {
  StatusCode : Z;
  Body : ReadCloser
}.

End http.

(** ** The standard library the code calls into *)

Class GoLib : Type := {
  (** [json.Marshal] *)
  json_Marshal : GoValue -> string + error;
  (** [json.Unmarshal(data, &dst)]: the destination after the call and
      the error *)
  json_Unmarshal : string -> GoValue -> GoValue * option error;
  (** [json.Unmarshal(data, &verr)] at type [apierror.APIError],
      starting from the zero value *)
  json_UnmarshalAPIError : string -> apierror.APIError * option error;
  (** the error of [url.Parse], checked by [http.NewRequest] *)
  url_Parse : string -> option error;
  (** [http.DefaultClient.Do] *)
  DefaultClient_Do : http.Request -> http.Response + error
}.

(** The same library with another default client. *)
Definition withDefaultClient (L : GoLib)
    (dc : http.Request -> http.Response + error) : GoLib :=
  {| json_Marshal := @json_Marshal L;
     json_Unmarshal := @json_Unmarshal L;
     json_UnmarshalAPIError := @json_UnmarshalAPIError L;
     url_Parse := @url_Parse L;
     DefaultClient_Do := dc |}.

(** [http.NewRequest]: an empty method means GET, the method must be a
    token and the URL must parse; the request starts with no header. *)
Definition validMethod (m : string) : bool :=
  negb (String.eqb m "") && http.allChars http.isTokenChar m.

Definition NewRequest `{GoLib} (method url body : string)
  : http.Request + error :=
  let method := if String.eqb method "" then http.MethodGet else method in
  if negb (validMethod method) then inr (ErrLib "net/http" "invalid method")
  else match url_Parse url with
       | Some err => inr err
       | None => inl (http.mkRequest method url ∅ body)
       end.

(** [ioutil.ReadAll] on a response body. *)
Definition ReadAll (b : http.ReadCloser) : string * option error :=
  (http.data b, http.readErr b).

(** ** Package httpclient *)

Module httpclient.

(** The [Doer] interface: its one method [Do]. *)
Definition Doer : Type := http.Request -> http.Response + error.

Record HTTPClient : Type := mkHTTPClient {
  doer : option Doer;
  ServiceAddress : string
}.

(** What a call of [Send] does besides computing its result, in order;
    [EvDo] records the request handed to the [Doer] and what came back. *)
Inductive Event : Type :=
| EvMarshal (payload : GoValue)
| EvNewRequest (method url body : string)
| EvDo (req : http.Request) (res : http.Response + error)
| EvReadAll
| EvUnmarshalError (body : string)
| EvUnmarshal (body : string)
| EvBodyClose.

(** The result of [Send]: the returned error, the value [respObj]
    points to when [Send] returns ([None] when [respObj] is nil) and the
    events of the call. *)
Record Outcome : Type := mkOutcome {
  err : option error;
  out : option GoValue;
  events : list Event
}.

Section WithLib.
Context `{GoLib}.

Definition getDoer (c : HTTPClient) : Doer :=
  match doer c with
  | None => DefaultClient_Do
  | Some d => d
  end.

(** Lines 47-70 of client.go: what happens to a response whose status
    is not 404.  [tr] holds the events so far; the deferred
    [resp.Body.Close()] runs at every return. *)
Definition handleResponse (method url reqBody : string)
    (resp : http.Response) (respObj : option GoValue) (tr : list Event)
  : Outcome :=
  let '(body, rerr) := ReadAll (http.Body resp) in
  let tr := tr ++ [EvReadAll] in
  match rerr with
  | Some e =>
      mkOutcome
        (Some (Wrapf e "HTTPClient.Send [ReadBody (Method: %s Path: %s Body: %s)]"
                 [ArgStr method; ArgStr url; ArgBytes reqBody]))
        respObj (tr ++ [EvBodyClose])
  | None =>
      if ((http.StatusCode resp <? 200) || (299 <? http.StatusCode resp))%Z then
        let '(verr, uerr) := json_UnmarshalAPIError body in
        let tr := tr ++ [EvUnmarshalError body] in
        match uerr with
        | Some e =>
            mkOutcome
              (Some (Wrapf e "CardsServiceClient.Send [UnmarshalResponseErr(status code: %v body: %s)]"
                       [ArgInt (http.StatusCode resp); ArgBytes body]))
              respObj (tr ++ [EvBodyClose])
        | None =>
            mkOutcome
              (Some (ErrAPI (apierror.withStatusCode verr (http.StatusCode resp))))
              respObj (tr ++ [EvBodyClose])
        end
      else
        match respObj with
        | None => mkOutcome None None (tr ++ [EvBodyClose])
        | Some dst =>
            let '(dst', uerr) := json_Unmarshal body dst in
            let tr := tr ++ [EvUnmarshal body] in
            match uerr with
            | Some e =>
                mkOutcome
                  (Some (Wrapf e "CardsServiceClient.Send [UnmarshalResponseErr(status code: %v body: %s)]"
                           [ArgInt (http.StatusCode resp); ArgBytes body]))
                  (Some dst') (tr ++ [EvBodyClose])
            | None => mkOutcome None (Some dst') (tr ++ [EvBodyClose])
            end
        end
  end.

(** Lines 24-32: the payload is marshalled unless it is nil. *)
Definition marshalPayload (payload : option GoValue) : (string + error) * list Event :=
  match payload with
  | Some p => (json_Marshal p, [EvMarshal p])
  | None => (inl "", [])
  end.

(** Line 37: [req.Header.Add("content-type", "application/json")]. *)
Definition jsonRequest (req : http.Request) : http.Request :=
  http.mkRequest (http.Method req) (http.URL req)
    (http.Header.Add (http.ReqHeader req) "content-type" "application/json")
    (http.ReqBody req).

(** [HTTPClient.Send], lines 23-46 and, through [handleResponse],
    47-71.  [payload] and [respObj] are [None] for nil. *)
Definition Send (c : HTTPClient) (method url : string)
    (payload : option GoValue) (respObj : option GoValue) : Outcome :=
  match marshalPayload payload with
  | (inr e, tr) =>
      mkOutcome (Some (Wrap e "HTTPClient.Send [JSON marshal payload]"))
                respObj tr
  | (inl reqBody, tr) =>
      let target := ServiceAddress c +:+ url in
      let tr := tr ++ [EvNewRequest method target reqBody] in
      match NewRequest method target reqBody with
      | inr e =>
          mkOutcome
            (Some (Wrapf e "HTTPClient.Send [Method: %s Path: %s ]"
                     [ArgStr method; ArgStr url]))
            respObj tr
      | inl req =>
          let req := jsonRequest req in
          let res := getDoer c req in
          let tr := tr ++ [EvDo req res] in
          match res with
          | inr e =>
              mkOutcome (Some (Wrapf e "HTTPClient.Send [Send request]" []))
                        respObj tr
          | inl resp =>
              if (http.StatusCode resp =? http.StatusNotFound)%Z then
                mkOutcome (Some EntityNotFoundErr) respObj (tr ++ [EvBodyClose])
              else handleResponse method url reqBody resp respObj tr
          end
      end
  end.

(** *** Vocabulary of the statements about [Send] *)

Definition isDo (e : Event) : bool :=
  match e with EvDo _ _ => true | _ => false end.

Definition isMarshal (e : Event) : bool :=
  match e with EvMarshal _ => true | _ => false end.

(** The events that touch the response body. *)
Definition readsBody (e : Event) : bool :=
  match e with
  | EvReadAll | EvUnmarshalError _ | EvUnmarshal _ => true
  | _ => false
  end.


(** The call of the [Doer] came back with a response. *)
Definition isReceived (e : Event) : bool :=
  match e with EvDo _ (inl _) => true | _ => false end.

Definition isBodyClose (e : Event) : bool :=
  match e with EvBodyClose => true | _ => false end.

Definition isNewRequest (e : Event) : bool :=
  match e with EvNewRequest _ _ _ => true | _ => false end.


End WithLib.
End httpclient.

(** ** A reference instance of the library

    A small JSON codec in the manner of encoding/json, used to run the
    code on concrete inputs.  Map keys are written in sorted order; a
    value without encoding makes [marshal] fail; [assign] follows the
    documented behaviour of [json.Unmarshal]: a JSON value that does not
    fit its target is skipped, decoding goes on, and the earliest such
    error is returned. *)

Module RefJSON.

Inductive json : Type :=
| JNull
| JBool (b : bool)
| JNum (n : Z)
| JStr (s : string)
| JArr (l : list json)
| JObj (ms : list (string * json)).

Definition dq : ascii := ascii_of_nat 34.
Definition bs : ascii := ascii_of_nat 92.

(** Writes a JSON text with ['] in place of the double quote. *)
Fixpoint lit (s : string) : string :=
  match s with
  | EmptyString => EmptyString
  | String c r => String (if Ascii.eqb c "'" then dq else c) (lit r)
  end.

Fixpoint escape (s : string) : string :=
  match s with
  | EmptyString => EmptyString
  | String c r =>
      match nat_of_ascii c with
      | 34%nat => String bs (String dq (escape r))
      | 92%nat => String bs (String bs (escape r))
      | 10%nat => String bs (String "n" (escape r))
      | 13%nat => String bs (String "r" (escape r))
      | 9%nat => String bs (String "t" (escape r))
      | _ => String c (escape r)
      end
  end.

Definition quoted (s : string) : string :=
  String dq (escape s) +:+ String dq "".

Fixpoint joinWith (sep : string) (l : list string) : string :=
  match l with
  | [] => ""
  | [x] => x
  | x :: r => x +:+ sep +:+ joinWith sep r
  end.

(** The first error of a list of results, else all the texts. *)
Fixpoint collect (l : list (string + error)) : list string + error :=
  match l with
  | [] => inl []
  | inr e :: _ => inr e
  | inl s :: r =>
      match collect r with
      | inl ss => inl (s :: ss)
      | inr e => inr e
      end
  end.

Definition keyLe (x y : string * (string + error)) : Prop :=
  String.leb x.1 y.1 = true.

#[local] Instance keyLe_dec x y : Decision (keyLe x y).
Proof. unfold keyLe. apply _. Defined.

Definition member (kv : string * (string + error)) : string + error :=
  match kv.2 with
  | inl s => inl (quoted kv.1 +:+ ":" +:+ s)
  | inr e => inr e
  end.

Definition object (ms : list (string * (string + error))) : string + error :=
  match collect (map member ms) with
  | inl ss => inl ("{" +:+ joinWith "," ss +:+ "}")
  | inr e => inr e
  end.

Definition unsupported : error :=
  ErrLib "encoding/json" "unsupported type".

Fixpoint marshal (v : GoValue) : string + error :=
  match v with
  | VNil => inl "null"
  | VBool true => inl "true"
  | VBool false => inl "false"
  | VNum n => inl (itoa n)
  | VString s => inl (quoted s)
  | VSlice l =>
      match collect (map marshal l) with
      | inl ss => inl ("[" +:+ joinWith "," ss +:+ "]")
      | inr e => inr e
      end
  | VMap m => object (merge_sort keyLe (map_to_list (marshal <$> m)))
  | VStruct fields =>
      object (map (fun kv : string * GoValue => (kv.1, marshal kv.2)) fields)
  | VFunc => inr unsupported
  end.

(** *** Parsing *)

Definition isSpace (c : ascii) : bool :=
  match nat_of_ascii c with
  | 32%nat | 9%nat | 10%nat | 13%nat => true
  | _ => false
  end.

Fixpoint skipWS (s : string) : string :=
  match s with
  | String c r => if isSpace c then skipWS r else s
  | EmptyString => s
  end.

Fixpoint parseDigits (acc : Z) (s : string) : Z * string :=
  match s with
  | String c r =>
      if http.isDigit c
      then parseDigits (acc * 10 + (Z.of_nat (nat_of_ascii c) - 48)) r
      else (acc, s)
  | EmptyString => (acc, s)
  end.

Definition unescape (c : ascii) : option ascii :=
  match nat_of_ascii c with
  | 34%nat => Some dq
  | 92%nat => Some bs
  | 47%nat => Some "/"%char
  | 110%nat => Some (ascii_of_nat 10)
  | 114%nat => Some (ascii_of_nat 13)
  | 116%nat => Some (ascii_of_nat 9)
  | 98%nat => Some (ascii_of_nat 8)
  | 102%nat => Some (ascii_of_nat 12)
  | _ => None
  end.

(** The rest of a string literal, after its opening quote. *)
Fixpoint parseString (s : string) : option (string * string) :=
  match s with
  | EmptyString => None
  | String c r =>
      if Ascii.eqb c dq then Some ("", r)
      else if Ascii.eqb c bs then
        match r with
        | String e r' =>
            match unescape e, parseString r' with
            | Some c', Some (t, rest) => Some (String c' t, rest)
            | _, _ => None
            end
        | EmptyString => None
        end
      else
        match parseString r with
        | Some (t, rest) => Some (String c t, rest)
        | None => None
        end
  end.

Fixpoint stripPrefix (p s : string) : option string :=
  match p, s with
  | EmptyString, _ => Some s
  | String a p', String b s' => if Ascii.eqb a b then stripPrefix p' s' else None
  | _, _ => None
  end.

Definition parseNumber (s : string) : option (json * string) :=
  match s with
  | String c r =>
      if Ascii.eqb c "-" then
        match r with
        | String d _ =>
            if http.isDigit d
            then let '(n, rest) := parseDigits 0 r in Some (JNum (- n), rest)
            else None
        | EmptyString => None
        end
      else if http.isDigit c
      then let '(n, rest) := parseDigits 0 s in Some (JNum n, rest)
      else None
  | EmptyString => None
  end.

Fixpoint parseValue (fuel : nat) (s : string) {struct fuel}
  : option (json * string) :=
  match fuel with
  | O => None
  | S fuel =>
      match skipWS s with
      | EmptyString => None
      | String c r as s' =>
          if Ascii.eqb c "n" then
            (fun rest => (JNull, rest)) <$> stripPrefix "null" s'
          else if Ascii.eqb c "t" then
            (fun rest => (JBool true, rest)) <$> stripPrefix "true" s'
          else if Ascii.eqb c "f" then
            (fun rest => (JBool false, rest)) <$> stripPrefix "false" s'
          else if Ascii.eqb c dq then
            (fun '(t, rest) => (JStr t, rest)) <$> parseString r
          else if Ascii.eqb c "[" then
            match skipWS r with
            | String "]" rest => Some (JArr [], rest)
            | _ => (fun '(l, rest) => (JArr l, rest)) <$> parseElems fuel r
            end
          else if Ascii.eqb c "{" then
            match skipWS r with
            | String "}" rest => Some (JObj [], rest)
            | _ => (fun '(ms, rest) => (JObj ms, rest)) <$> parseMembers fuel r
            end
          else parseNumber s'
      end
  end
with parseElems (fuel : nat) (s : string) {struct fuel}
  : option (list json * string) :=
  match fuel with
  | O => None
  | S fuel =>
      match parseValue fuel s with
      | None => None
      | Some (v, rest) =>
          match skipWS rest with
          | String "]" rest' => Some ([v], rest')
          | String "," rest' =>
              (fun '(l, rest'') => (v :: l, rest'')) <$> parseElems fuel rest'
          | _ => None
          end
      end
  end
with parseMembers (fuel : nat) (s : string) {struct fuel}
  : option (list (string * json) * string) :=
  match fuel with
  | O => None
  | S fuel =>
      match skipWS s with
      | String c r =>
          if Ascii.eqb c dq then
            match parseString r with
            | None => None
            | Some (k, rest) =>
                match skipWS rest with
                | String ":" rest1 =>
                    match parseValue fuel rest1 with
                    | None => None
                    | Some (v, rest2) =>
                        match skipWS rest2 with
                        | String "}" rest3 => Some ([(k, v)], rest3)
                        | String "," rest3 =>
                            (fun '(ms, rest4) => ((k, v) :: ms, rest4))
                              <$> parseMembers fuel rest3
                        | _ => None
                        end
                    end
                | _ => None
                end
            end
          else None
      | EmptyString => None
      end
  end.

(** A whole JSON text: one value, then only white space. *)
Definition parse (s : string) : option json :=
  match parseValue (2 * String.length s + 2) s with
  | Some (j, rest) =>
      match skipWS rest with
      | EmptyString => Some j
      | _ => None
      end
  | None => None
  end.

End RefJSON.

Module RefUnmarshal.
Import RefJSON.

(** Decoding into an empty interface: objects become maps (a repeated
    key keeps its last value), arrays become slices. *)
Fixpoint toGo (j : json) : GoValue :=
  match j with
  | JNull => VNil
  | JBool b => VBool b
  | JNum n => VNum n
  | JStr s => VString s
  | JArr l => VSlice (map toGo l)
  | JObj ms =>
      VMap ((fix go (ms : list (string * json)) (acc : gmap string GoValue) :=
               match ms with
               | [] => acc
               | (k, v) :: r => go r (<[k := toGo v]> acc)
               end) ms ∅)
  end.

Definition typeError (what : string) : error :=
  ErrLib "encoding/json" ("cannot unmarshal " +:+ what).

Definition firstError (e1 e2 : option error) : option error :=
  match e1 with
  | Some _ => e1
  | None => e2
  end.

(** Decodes into the field named [k], if the struct has one. *)
Fixpoint setField (k : string) (f : GoValue -> GoValue * option error)
    (fields : list (string * GoValue)) : list (string * GoValue) * option error :=
  match fields with
  | [] => ([], None)
  | (name, v) :: r =>
      if String.eqb name k
      then let '(v', e) := f v in ((name, v') :: r, e)
      else let '(r', e) := setField k f r in ((name, v) :: r', e)
  end.

(** [assign j dst]: the destination after decoding [j] into it.  The
    value held by the destination stands for its type: [VNil] is an
    empty interface, [VStruct] a struct, [VNum], [VString] and [VBool]
    variables of these types. *)
Fixpoint assign (j : json) (dst : GoValue) {struct j} : GoValue * option error :=
  match j with
  | JNull =>
      match dst with
      | VSlice _ | VMap _ => (VNil, None)
      | _ => (dst, None)
      end
  | JBool b =>
      match dst with
      | VNil | VBool _ => (VBool b, None)
      | _ => (dst, Some (typeError "bool"))
      end
  | JNum n =>
      match dst with
      | VNil | VNum _ => (VNum n, None)
      | _ => (dst, Some (typeError "number"))
      end
  | JStr s =>
      match dst with
      | VNil | VString _ => (VString s, None)
      | _ => (dst, Some (typeError "string"))
      end
  | JArr l =>
      match dst with
      | VNil | VSlice _ => (VSlice (map toGo l), None)
      | _ => (dst, Some (typeError "array"))
      end
  | JObj ms =>
      match dst with
      | VNil => (toGo j, None)
      | VMap m =>
          (VMap ((fix go (ms : list (string * json)) (acc : gmap string GoValue) :=
                    match ms with
                    | [] => acc
                    | (k, v) :: r => go r (<[k := toGo v]> acc)
                    end) ms m), None)
      | VStruct fields =>
          let '(fields', e) :=
            (fix go (ms : list (string * json)) (fields : list (string * GoValue)) :=
               match ms with
               | [] => (fields, None)
               | (k, v) :: r =>
                   let '(fields1, e1) := setField k (assign v) fields in
                   let '(fields2, e2) := go r fields1 in
                   (fields2, firstError e1 e2)
               end) ms fields in
          (VStruct fields', e)
      | _ => (dst, Some (typeError "object"))
      end
  end.

Definition syntaxError : error := ErrLib "encoding/json" "invalid JSON".

(** [json.Unmarshal]: the text is checked first, so a syntax error
    leaves the destination as it was. *)
Definition unmarshal (body : string) (dst : GoValue) : GoValue * option error :=
  match parse body with
  | None => (dst, Some syntaxError)
  | Some j => assign j dst
  end.

Definition lookupField (k : string) (fields : list (string * GoValue)) : GoValue :=
  default VNil (snd <$> List.find (fun kv => String.eqb kv.1 k) fields).

Definition asNum (v : GoValue) : Z := match v with VNum n => n | _ => 0 end.
Definition asString (v : GoValue) : string := match v with VString s => s | _ => "" end.

(** Modelled from the spec: the JSON shape of [apierror.APIError], a
    code and a message; the status code is not part of the body. *)
Definition unmarshalAPIError (body : string) : apierror.APIError * option error :=
  match unmarshal body (VStruct [("code", VNum 0); ("message", VString "")]) with
  | (VStruct fields, e) =>
      (apierror.mkAPIError 0 (asNum (lookupField "code" fields))
         (asString (lookupField "message" fields)), e)
  | (_, e) => (apierror.mkAPIError 0 0 "", e)
  end.

(** [url.Parse] rejects control characters. *)
Definition isControl (c : ascii) : bool :=
  (nat_of_ascii c <? 32)%nat || (nat_of_ascii c =? 127)%nat.

Fixpoint anyChar (p : ascii -> bool) (s : string) : bool :=
  match s with
  | EmptyString => false
  | String c r => p c || anyChar p r
  end.

Definition urlParse (s : string) : option error :=
  if anyChar isControl s
  then Some (ErrLib "net/url" "invalid control character in URL")
  else None.

End RefUnmarshal.

(** The reference instance.  Its default client reaches no server. *)
Definition RefLib : GoLib := {|
  json_Marshal := RefJSON.marshal;
  json_Unmarshal := RefUnmarshal.unmarshal;
  json_UnmarshalAPIError := RefUnmarshal.unmarshalAPIError;
  url_Parse := RefUnmarshal.urlParse;
  DefaultClient_Do := fun _ => inr (ErrLib "net/http" "connection refused")
|}.

(** ** The server side of net/http *)

Module server.

(** What a handler has done to its [http.ResponseWriter]: the header
    map, whether the status line went out, with which code and which
    headers, and the body bytes written. *)
Record ResponseWriter : Type := mkRW {
  header : gmap string (list string);
  wroteHeader : bool;
  status : Z;
  sentHeader : gmap string (list string);
  written : string
}.

Definition newResponseWriter : ResponseWriter := mkRW ∅ false 0 ∅ "".

Definition SetHeader (key value : string) (w : ResponseWriter) : ResponseWriter :=
  mkRW (http.Header.Set_ (header w) key value)
       (wroteHeader w) (status w) (sentHeader w) (written w).

(** [WriteHeader]: the first call fixes the status and the headers; a
    later one is ignored. *)
Definition WriteHeader (code : Z) (w : ResponseWriter) : ResponseWriter :=
  if wroteHeader w then w
  else mkRW (header w) true code (header w) (written w).

(** [Write]: an implicit [WriteHeader(200)] before the first byte. *)
Definition Write (b : string) (w : ResponseWriter) : ResponseWriter :=
  let w := WriteHeader http.StatusOK w in
  mkRW (header w) (wroteHeader w) (status w) (sentHeader w) (written w +:+ b).

(** What the client receives once the handler has returned: a handler
    that never wrote gets the implicit status 200.  [headers] are the
    headers the handler has set; those the server adds of its own (the
    date, the content length) are left out. *)
Record Reply : Type := mkReply {
  code : Z;
  headers : gmap string (list string);
  body : string
}.

Definition finish (w : ResponseWriter) : Reply :=
  let w := WriteHeader http.StatusOK w in
  mkReply (status w) (sentHeader w) (written w).

(** The state of a running [http.Server]: whether its listener accepts
    connections and, for each request in flight, the time it still
    needs, in nanoseconds. *)
Record ServerState : Type := mkServerState {
  accepting : bool;
  inflight : list Z
}.

(** [Server.Shutdown(ctx)] with a context that expires after [timeout]:
    the listener is closed, requests that finish in time are waited
    for, the others are left running and the context's error is
    returned. *)
Definition Shutdown (timeout : Z) (s : ServerState) : ServerState * option error :=
  let late := List.filter (fun d => timeout <? d)%Z (inflight s) in
  (mkServerState false (map (fun d => d - timeout)%Z late),
   match late with
   | [] => None
   | _ :: _ => Some DeadlineExceeded
   end).

(** [Server.Close()]: closes the listener and every connection. *)
Definition Close (s : ServerState) : ServerState := mkServerState false [].

End server.

(** [time.Duration] counts nanoseconds. *)
Definition Second : Z := 1000000000.

Inductive Signal : Type := SIGHUP | SIGINT | SIGQUIT | SIGTERM | SIGUSR1.

#[global] Instance Signal_eq_dec : EqDecision Signal.
Proof. solve_decision. Defined.

(** ** Package corekit *)

Module corekit.
Import server.

Section Definitions.
(** [World] is the state of the outside at the time of a request, which
    dependency probes and domain handlers consult; [LoggerT] is the type
    of logging functions. *)
Context {World : Type} {LoggerT : Type} `{GoLib}.

Inductive LogArg : Type :=
| LogInt (n : Z)
| LogErr (e : error).

(** The effects of the service, in program order; [Log l] is a call of
    the logging function [l]. *)
Inductive Effect : Type :=
| Log (l : LoggerT) (format : string) (args : list LogArg)
| Notify (sigs : list Signal)
| GoWatcher
| ListenAndServe (addr : string)
| ListenAndServeTLS (addr certFile keyFile : string)
| ServerShutdown (timeout : Z)
| CtxCancel.

(** An [http.Handler]: what [ServeHTTP] does to the response writer,
    and its effects. *)
Definition Handler : Type :=
  World -> http.Request -> ResponseWriter -> ResponseWriter * list Effect.

(** The [ServeMux] interface: an implementation with its two methods. *)
Record ServeMux : Type := mkServeMux {
  mux_state : Type;
  mux_this : mux_state;
  mux_Add : mux_state -> string -> string -> Handler -> mux_state;
  mux_ServeHTTP : mux_state -> Handler
}.

Definition Add (m : ServeMux) (meth pat : string) (h : Handler) : ServeMux :=
  mkServeMux (mux_state m) (mux_Add m (mux_this m) meth pat h)
             (mux_Add m) (mux_ServeHTTP m).

Definition ServeHTTP (m : ServeMux) : Handler := mux_ServeHTTP m (mux_this m).

(** *** The default router *)

Record Route : Type := mkRoute {
  route_method : string;
  route_pattern : string;
  route_handler : Handler
}.

Fixpoint segments (cur s : string) : list string :=
  match s with
  | EmptyString => [cur]
  | String c r =>
      if Ascii.eqb c "/" then cur :: segments "" r
      else segments (cur +:+ String c "") r
  end.

Definition isParam (seg : string) : bool :=
  match seg with
  | String ":" _ => true
  | _ => false
  end.

Fixpoint matchSegments (ps xs : list string) : bool :=
  match ps, xs with
  | [], [] => true
  | p :: ps', x :: xs' =>
      ((isParam p && negb (String.eqb x "")) || String.eqb p x)
      && matchSegments ps' xs'
  | _, _ => false
  end.

Definition matchPattern (pat path : string) : bool :=
  matchSegments (segments "" pat) (segments "" path).

(** [http.NotFound]. *)
Definition NotFound (w : ResponseWriter) : ResponseWriter :=
  let w := SetHeader "Content-Type" "text/plain; charset=utf-8" w in
  let w := SetHeader "X-Content-Type-Options" "nosniff" w in
  Write ("404 page not found" +:+ String (ascii_of_nat 10) "")
        (WriteHeader http.StatusNotFound w).

Definition routeMatches (rt : Route) (meth path : string) : bool :=
  String.eqb (route_method rt) meth && matchPattern (route_pattern rt) path.

(** Dispatch over a table of routes: the first registration that
    matches the method and the path serves the request. *)
Definition dispatch (rs : list Route) : Handler :=
  fun world r w =>
    match List.find (fun rt => routeMatches rt (http.Method r) (http.URL r)) rs with
    | Some rt => route_handler rt world r w
    | None => (NotFound w, [])
    end.

(** Modelled from the spec: [adoptPatRouter], the adapter of the
    pattern router, is not among the sources.  [Add] registers a handler
    for an exact method and a path pattern with named parameters;
    dispatch invokes the first registration that matches, or answers
    not found.  Which of two registrations for the same method and path
    serves is left open by the spec; the order taken here is that of the
    pattern router, and nothing below is stated about such a pair. *)
Definition adoptPatRouter : ServeMux :=
  mkServeMux (list Route) []
    (fun rs meth pat h => rs ++ [mkRoute meth pat h])
    dispatch.

(** The contract of a router, whatever its implementation: [m] holds
    the routes [rs] when, after any further registrations, it serves as
    the dispatch over all of them. *)
Definition addAll (m : ServeMux) (extra : list Route) : ServeMux :=
  fold_left (fun m rt => Add m (route_method rt) (route_pattern rt) (route_handler rt))
            extra m.

Definition adopts (m : ServeMux) (rs : list Route) : Prop :=
  forall extra world r w,
    ServeHTTP (addAll m extra) world r w = dispatch (rs ++ extra) world r w.

Definition noMatch (rs : list Route) (meth path : string) : Prop :=
  Forall (fun rt => routeMatches rt meth path = false) rs.

(** *** Options *)

Record Options : Type := mkOptions {
  name : string;
  version : string;
  dependenciesInfo : gmap string (World -> GoValue);
  params : gmap string string;
  port : Z;
  certFile : string;
  keyFile : string;
  serveMux : ServeMux;
  httpsEnabled : bool;
  logger : LoggerT
}.

Definition Option_ : Type := Options -> Options.

Definition Name (n : string) : Option_ := fun o =>
  mkOptions n (version o) (dependenciesInfo o) (params o) (port o)
            (certFile o) (keyFile o) (serveMux o) (httpsEnabled o) (logger o).

Definition Version (v : string) : Option_ := fun o =>
  mkOptions (name o) v (dependenciesInfo o) (params o) (port o)
            (certFile o) (keyFile o) (serveMux o) (httpsEnabled o) (logger o).

Definition DependencyInfo (n : string) (f : World -> GoValue) : Option_ := fun o =>
  mkOptions (name o) (version o) (<[n := f]> (dependenciesInfo o)) (params o) (port o)
            (certFile o) (keyFile o) (serveMux o) (httpsEnabled o) (logger o).

Definition Param (n val : string) : Option_ := fun o =>
  mkOptions (name o) (version o) (dependenciesInfo o) (<[n := val]> (params o)) (port o)
            (certFile o) (keyFile o) (serveMux o) (httpsEnabled o) (logger o).

Definition Port (p : Z) : Option_ := fun o =>
  mkOptions (name o) (version o) (dependenciesInfo o) (params o) p
            (certFile o) (keyFile o) (serveMux o) (httpsEnabled o) (logger o).

Definition Https (cert key : string) : Option_ := fun o =>
  mkOptions (name o) (version o) (dependenciesInfo o) (params o) (port o)
            cert key (serveMux o) true (logger o).

Definition UseServeMux (mux : ServeMux) : Option_ := fun o =>
  mkOptions (name o) (version o) (dependenciesInfo o) (params o) (port o)
            (certFile o) (keyFile o) mux (httpsEnabled o) (logger o).

Definition Logger (l : LoggerT) : Option_ := fun o =>
  mkOptions (name o) (version o) (dependenciesInfo o) (params o) (port o)
            (certFile o) (keyFile o) (serveMux o) (httpsEnabled o) l.

Definition withServeMux (o : Options) (mux : ServeMux) : Options :=
  UseServeMux mux o.

(** *** The handler wrappers *)

(** Modelled from the spec: the types [APIHandler] and
    [StreamAPIHandler] are declared outside the sources.  An API handler
    maps the request and its decoded input to an output or an error; a
    stream handler produces its chunks and ends with an error or nil. *)
Definition APIHandler : Type := World -> http.Request -> GoValue -> GoValue + error.
Definition StreamAPIHandler : Type := World -> http.Request -> list string * option error.

(** Modelled from the spec: the status of a domain error; not found is
    404, a validation failure carries 400 or 422, anything else is 500. *)
Definition statusOfError (e : error) : Z :=
  match e with
  | EntityNotFoundErr => 404
  | ErrAPI a =>
      if ((apierror.StatusCode a =? 400) || (apierror.StatusCode a =? 422))%Z
      then apierror.StatusCode a else 500
  | _ => 500
  end.

Definition errorBody (code : Z) (e : error) : GoValue :=
  VStruct [("code", VNum code); ("message", VString (errorString e))].

Definition writeJSON (code : Z) (b : string) (w : ResponseWriter) : ResponseWriter :=
  Write b (WriteHeader code (SetHeader "content-type" "application/json" w)).

Definition respondError (l : LoggerT) (code : Z) (e : error) (w : ResponseWriter)
  : ResponseWriter * list Effect :=
  (match json_Marshal (errorBody code e) with
   | inl b => writeJSON code b w
   | inr _ => WriteHeader code w
   end,
   [Log l "[ERROR] %+v\n" [LogErr e]]).

(** The request body decoded into the handler's input; a request
    without body gives the nil input. *)
Definition decodeInput (r : http.Request) : GoValue + error :=
  if String.eqb (http.ReqBody r) "" then inl VNil
  else match json_Unmarshal (http.ReqBody r) VNil with
       | (v, None) => inl v
       | (_, Some e) => inr e
       end.

(** Modelled from the spec: [wrapAPIHandler] is defined outside the
    sources.  It decodes the request body, invokes the handler, and
    writes the response once: the output as JSON with status 200 and
    content type application/json, or the error mapped to a status and a
    JSON error body, logged through the logger. *)
Definition wrapAPIHandler (l : LoggerT) (handler : APIHandler) : Handler :=
  fun world r w =>
    match decodeInput r with
    | inr e => respondError l 400 e w
    | inl input =>
        match handler world r input with
        | inr e => respondError l (statusOfError e) e w
        | inl output =>
            match json_Marshal output with
            | inl b => (writeJSON http.StatusOK b w, [])
            | inr e => respondError l 500 e w
            end
        end
    end.

(** Modelled from the spec: [streamWrapAPIHandler] is defined outside
    the sources.  Every chunk is written and flushed as it comes; an
    error before the first chunk becomes a JSON error response, a later
    one can only be logged. *)
Definition streamWrapAPIHandler (l : LoggerT) (handler : StreamAPIHandler) : Handler :=
  fun world r w =>
    let '(chunks, err) := handler world r in
    match err, chunks with
    | Some e, [] => respondError l (statusOfError e) e w
    | Some e, _ :: _ =>
        (fold_left (fun w c => Write c w) chunks w, [Log l "[ERROR] %+v\n" [LogErr e]])
    | None, _ => (fold_left (fun w c => Write c w) chunks w, [])
    end.

(** *** The service *)

Record service : Type := mkService {
  options : Options;
  wrapAPIHandler_ : APIHandler -> Handler;
  streamAPIHandler : StreamAPIHandler -> Handler
}.

(** The handler of [/metrics] comes from the metrics exporter. *)
Variable promhttp_Handler : Handler.

(** [json.NewEncoder(w).Encode(v)]: the value is marshalled first and
    written, with a newline, only when that succeeded. *)
Definition Encode (w : ResponseWriter) (v : GoValue) : ResponseWriter * option error :=
  match json_Marshal v with
  | inl b => (Write (b +:+ String (ascii_of_nat 10) "") w, None)
  | inr e => (w, Some e)
  end.

(** The handler of [/health], lines 119-121. *)
Definition healthHandler : Handler :=
  fun _ _ w => (WriteHeader http.StatusOK w, []).

(** The value the handler of [/info] encodes, lines 125-134: every
    probe is invoked at the time of the request. *)
Definition infoValue (o : Options) (world : World) : GoValue :=
  let dp : gmap string GoValue := (fun d => d world) <$> dependenciesInfo o in
  VMap (<["name" := VString (name o)]>
       (<["version" := VString (version o)]>
       (<["params" := VMap (VString <$> params o)]>
       (<["dependencies" := VMap dp]> ∅)))).

(** The handler of [/info], lines 123-135; the error of [Encode] is
    dropped. *)
Definition infoHandler (o : Options) : Handler :=
  fun world _ w =>
    let w := SetHeader "content-type" "application/json" w in
    ((Encode w (infoValue o world)).1, []).

Definition withMux (s : service) (mux : ServeMux) : service :=
  mkService (withServeMux (options s) mux) (wrapAPIHandler_ s) (streamAPIHandler s).

Definition defaultOptions (defaultLogger : LoggerT) : Options :=
  mkOptions "" "" ∅ ∅ 0 "" "" adoptPatRouter false defaultLogger.

(** Lines 102-111: the options applied in order to the defaults. *)
Definition applyOptions (defaultLogger : LoggerT) (opts : list Option_) : Options :=
  fold_left (fun o f => f o) opts (defaultOptions defaultLogger).

(** [NewService], lines 98-140. *)
Definition NewService (defaultLogger : LoggerT) (opts : list Option_) : service :=
  let options := applyOptions defaultLogger opts in
  let service :=
    mkService options (wrapAPIHandler (logger options))
              (streamWrapAPIHandler (logger options)) in
  let mux := Add (serveMux options) http.MethodGet "/health" healthHandler in
  let mux := Add mux http.MethodGet "/info" (infoHandler options) in
  let mux := Add mux http.MethodGet "/metrics" promhttp_Handler in
  withMux service mux.

(** The registration methods, lines 148-164. *)
Definition Get (s : service) (path : string) (handler : APIHandler) : service :=
  withMux s (Add (serveMux (options s)) http.MethodGet path (wrapAPIHandler_ s handler)).

Definition Post (s : service) (path : string) (handler : APIHandler) : service :=
  withMux s (Add (serveMux (options s)) http.MethodPost path (wrapAPIHandler_ s handler)).

Definition Put (s : service) (path : string) (handler : APIHandler) : service :=
  withMux s (Add (serveMux (options s)) http.MethodPut path (wrapAPIHandler_ s handler)).

Definition Del (s : service) (path : string) (handler : APIHandler) : service :=
  withMux s (Add (serveMux (options s)) http.MethodDelete path (wrapAPIHandler_ s handler)).

Definition Stream (s : service) (path : string) (handler : StreamAPIHandler) : service :=
  withMux s (Add (serveMux (options s)) http.MethodGet path (streamAPIHandler s handler)).

(** A request served by the service: dispatched by its router to a
    fresh response writer. *)
Definition serve (s : service) (world : World) (r : http.Request) : Reply :=
  finish (ServeHTTP (serveMux (options s)) world r newResponseWriter).1.

(** *** Run *)

(** The signals [signal.Notify] is asked for, line 175. *)
Definition notified : list Signal := [SIGINT; SIGTERM].

(** The goroutine of lines 176-187, once a signal has arrived on the
    channel: it acts on the running server. *)
Definition watcher (s : service) (srv : ServerState) : ServerState * list Effect :=
  let l := logger (options s) in
  let timeout := 5 * Second in
  let '(srv', err) := Shutdown timeout srv in
  (srv',
   [Log l "[INFO] Graceful shutdown...\n" []; ServerShutdown timeout]
   ++ match err with
      | Some e => [Log l "[ERROR] %+v\n" [LogErr e]]
      | None => []
      end
   ++ [Log l "[INFO] Service stoped\n" []; CtxCancel]).

(** A signal sent to the process: only a notified one reaches the
    channel and wakes the watcher. *)
Definition onSignal (s : service) (sig : Signal) (srv : ServerState)
  : ServerState * list Effect :=
  if decide (sig ∈ notified) then watcher s srv else (srv, []).

Definition isErrServerClosed (e : error) : bool :=
  match e with ErrServerClosed => true | _ => false end.

(** [Run], lines 166-198, on the calling goroutine.  [listen] is what
    the listener does: [None] when it never stops, else the error
    [ListenAndServe] returns.  The result is [None] when [Run] does not
    return, else its effects. *)
Definition Run (s : service) (listen : option (option error)) : option (list Effect) :=
  let o := options s in
  let addr := ":" +:+ itoa (port o) in
  let start :=
    [Log (logger o) "[INFO] Start listening address :%v\n" [LogInt (port o)];
     Notify notified;
     GoWatcher;
     if httpsEnabled o then ListenAndServeTLS addr (certFile o) (keyFile o)
     else ListenAndServe addr] in
  match listen with
  | None => None
  | Some err =>
      Some (start ++
            match err with
            | Some e =>
                if isErrServerClosed e then []
                else [Log (logger o) "[ERROR] %+v\n" [LogErr e]]
            | None => []
            end)
  end.

(** *** Vocabulary of the statements *)

(** A domain handler that returns its decoded input. *)
Definition echo : APIHandler := fun _ _ input => inl input.

Definition isListen (e : Effect) : bool :=
  match e with
  | ListenAndServe _ | ListenAndServeTLS _ _ _ => true
  | _ => false
  end.

Definition isErrorLog (e : Effect) : bool :=
  match e with
  | Log _ "[ERROR] %+v\n" _ => true
  | _ => false
  end.

Definition isShutdown (e : Effect) : bool :=
  match e with
  | ServerShutdown _ => true
  | _ => false
  end.

(** *** Calls of the package's constructors *)

(** A call of one of the eight option constructors, lines 48-96. *)
Inductive OptionCall : Type :=
| CallName (n : string)
| CallVersion (v : string)
| CallDependencyInfo (n : string) (f : World -> GoValue)
| CallParam (n val : string)
| CallPort (p : Z)
| CallHttps (cert key : string)
| CallUseServeMux (mux : ServeMux)
| CallLogger (l : LoggerT).

Definition toOption (c : OptionCall) : Option_ :=
  match c with
  | CallName n => Name n
  | CallVersion v => Version v
  | CallDependencyInfo n f => DependencyInfo n f
  | CallParam n val => Param n val
  | CallPort p => Port p
  | CallHttps cert key => Https cert key
  | CallUseServeMux mux => UseServeMux mux
  | CallLogger l => Logger l
  end.

(** The value picked from the last call that has one, else [d]. *)
Definition lastOf {A : Type} (pick : OptionCall -> option A) (d : A)
    (cs : list OptionCall) : A :=
  fold_left (fun acc c => default acc (pick c)) cs d.

Definition pickName (c : OptionCall) : option string :=
  match c with CallName n => Some n | _ => None end.
Definition pickVersion (c : OptionCall) : option string :=
  match c with CallVersion v => Some v | _ => None end.
Definition pickPort (c : OptionCall) : option Z :=
  match c with CallPort p => Some p | _ => None end.
Definition pickHttps (c : OptionCall) : option (string * string) :=
  match c with CallHttps cert key => Some (cert, key) | _ => None end.
Definition pickLogger (c : OptionCall) : option LoggerT :=
  match c with CallLogger l => Some l | _ => None end.
Definition pickServeMux (c : OptionCall) : option ServeMux :=
  match c with CallUseServeMux mux => Some mux | _ => None end.

Definition isHttps (c : OptionCall) : bool :=
  match c with CallHttps _ _ => true | _ => false end.

(** The call sets the probe, or the parameter, of the name [n]. *)
Definition setsProbe (n : string) (c : OptionCall) : bool :=
  match c with CallDependencyInfo n' _ => String.eqb n' n | _ => false end.
Definition setsParam (n : string) (c : OptionCall) : bool :=
  match c with CallParam n' _ => String.eqb n' n | _ => false end.

(** The probes and the parameters the calls leave in the maps. *)
Definition probesOf (cs : list OptionCall) : gmap string (World -> GoValue) :=
  fold_left (fun m c => match c with
                        | CallDependencyInfo n f => <[n := f]> m
                        | _ => m
                        end) cs ∅.

Definition paramsOf (cs : list OptionCall) : gmap string string :=
  fold_left (fun m c => match c with
                        | CallParam n val => <[n := val]> m
                        | _ => m
                        end) cs ∅.

(** A call of one of the five registration methods, lines 148-164. *)
Inductive Registration : Type :=
| RegGet (path : string) (handler : APIHandler)
| RegPost (path : string) (handler : APIHandler)
| RegPut (path : string) (handler : APIHandler)
| RegDel (path : string) (handler : APIHandler)
| RegStream (path : string) (handler : StreamAPIHandler).

Definition register (s : service) (r : Registration) : service :=
  match r with
  | RegGet path h => Get s path h
  | RegPost path h => Post s path h
  | RegPut path h => Put s path h
  | RegDel path h => Del s path h
  | RegStream path h => Stream s path h
  end.

Definition registerAll (s : service) (rs : list Registration) : service :=
  fold_left register rs s.

(** The route a registration adds. *)
Definition routeOf (s : service) (r : Registration) : Route :=
  match r with
  | RegGet path h => mkRoute http.MethodGet path (wrapAPIHandler_ s h)
  | RegPost path h => mkRoute http.MethodPost path (wrapAPIHandler_ s h)
  | RegPut path h => mkRoute http.MethodPut path (wrapAPIHandler_ s h)
  | RegDel path h => mkRoute http.MethodDelete path (wrapAPIHandler_ s h)
  | RegStream path h => mkRoute http.MethodGet path (streamAPIHandler s h)
  end.

(** [ListenAndServe] on a server in the state [srv], as net/http
    documents it: the failure of the listener is returned when there is
    one; a server that has been shut down returns [ErrServerClosed];
    otherwise the call keeps serving and does not return. *)
Definition listenResult (srv : ServerState) (failure : option error)
  : option (option error) :=
  match failure with
  | Some e => Some (Some e)
  | None => if accepting srv then None else Some (Some ErrServerClosed)
  end.

End Definitions.
End corekit.

(** ** Concrete clients and services, for running the code *)

Module examples.
Import httpclient.

Definition response (sc : Z) (body : string) : http.Response :=
  http.mkResponse sc (http.mkBody body None).

(** A client over a mock transport that answers every request with
    [resp]. *)
Definition mockClient (resp : http.Response) : HTTPClient :=
  mkHTTPClient (Some (fun _ => inl resp)) "http://cards".


Definition getRequest (path : string) : http.Request :=
  http.mkRequest "GET" path ∅ "".

(** The world of the examples: whether the database is up. *)
Definition dbProbe : bool -> GoValue :=
  fun up => VString (if up then "ok" else "down").

(** A probe whose result has no JSON encoding. *)
Definition funcProbe : bool -> GoValue := fun _ => VFunc.

Definition noMetrics : @corekit.Handler bool string :=
  fun _ _ w => (w, []).

End examples.

(** * Properties of the client *)

Module httpclient_facts.
Import httpclient.

Section WithLib.
Context `{GoLib}.

Lemma NewRequest_inl method url body req :
  NewRequest method url body = inl req →
  http.ReqHeader req = ∅ ∧ http.ReqBody req = body ∧ http.URL req = url.
Proof.
  unfold NewRequest. intros Hreq.
  destruct (negb _); [discriminate|].
  destruct (url_Parse url); [discriminate|].
  injection Hreq as <-. done.
Qed.

Lemma marshalPayload_events payload :
  Forall (λ e, isDo e = false ∧ readsBody e = false) (marshalPayload payload).2.
Proof. destruct payload; simpl; repeat constructor. Qed.

(** The events [handleResponse] adds never call the [Doer]. *)
Lemma handleResponse_events method url reqBody resp respObj tr :
  ∃ suf, events (handleResponse method url reqBody resp respObj tr) = tr ++ suf
         ∧ Forall (λ e, isDo e = false ∧ isMarshal e = false) suf.
Proof.
  unfold handleResponse, ReadAll.
  destruct (http.readErr (http.Body resp)).
  { eexists. rewrite <- app_assoc. split; [reflexivity|]. repeat constructor. }
  destruct (_ || _).
  - destruct (json_UnmarshalAPIError _) as [verr [e|]]; simpl;
      eexists; rewrite <- !app_assoc; (split; [reflexivity|]); repeat constructor.
  - destruct respObj as [dst|]; simpl.
    + destruct (json_Unmarshal _ _) as [dst' [e|]]; simpl;
        eexists; rewrite <- !app_assoc; (split; [reflexivity|]); repeat constructor.
    + eexists; rewrite <- !app_assoc; (split; [reflexivity|]); repeat constructor.
Qed.

(** The shape of the events of [Send]: those of marshalling, then the
    construction of the request, then one call of the [Doer], then what
    [handleResponse] adds. *)
Lemma Send_events c method url payload respObj :
  let o := Send c method url payload respObj in
  events o = (marshalPayload payload).2
  ∨ (∃ reqBody,
       (marshalPayload payload).1 = inl reqBody
       ∧ ∃ ev, events o = (marshalPayload payload).2 ++ [EvNewRequest method (ServiceAddress c +:+ url) reqBody] ++ ev
       ∧ (ev = [] ∨
          ∃ req0 suf,
            NewRequest method (ServiceAddress c +:+ url) reqBody = inl req0
            ∧ ev = EvDo (jsonRequest req0) (getDoer c (jsonRequest req0)) :: suf
            ∧ Forall (λ e, isDo e = false ∧ isMarshal e = false) suf)).
Proof.
  unfold Send.
  destruct (marshalPayload payload) as [[reqBody|merr] tr0]; simpl; [|by left].
  right. exists reqBody. split; [done|].
  destruct (NewRequest method _ reqBody) as [req0|nerr] eqn:Hnew; simpl.
  2:{ exists []. split; [done|]. by left. }
  destruct (getDoer c (jsonRequest req0)) as [resp|derr] eqn:Hdo.
  - destruct (http.StatusCode resp =? http.StatusNotFound)%Z.
    + simpl. eexists. rewrite <- !app_assoc. split; [reflexivity|]. right.
      exists req0, [EvBodyClose]. rewrite Hdo. repeat split; repeat constructor.
    + destruct (handleResponse_events method url reqBody resp respObj
                  ((tr0 ++ [EvNewRequest method (ServiceAddress c +:+ url) reqBody])
                     ++ [EvDo (jsonRequest req0) (inl resp)])) as (suf & Hev & Hsuf).
      rewrite Hev. eexists. rewrite <- !app_assoc. split; [reflexivity|]. right.
      exists req0, suf. rewrite Hdo. done.
  - simpl. eexists. rewrite <- !app_assoc. split; [reflexivity|]. right.
    exists req0, []. rewrite Hdo. done.
Qed.

(** Every [EvDo] event of [Send] is the call of the [Doer] on the
    request built from the marshalled payload. *)
Lemma Send_EvDo_inv c method url payload respObj req res :
  EvDo req res ∈ events (Send c method url payload respObj) →
  ∃ reqBody req0,
    (marshalPayload payload).1 = inl reqBody
    ∧ NewRequest method (ServiceAddress c +:+ url) reqBody = inl req0
    ∧ req = jsonRequest req0
    ∧ res = getDoer c req.
Proof.
  intros Hin. pose proof (marshalPayload_events payload) as Hm.
  rewrite Forall_forall in Hm.
  destruct (Send_events c method url payload respObj)
    as [Hev|(reqBody & Hbody & ev & Hev & Hcase)]; rewrite Hev in Hin.
  { apply Hm in Hin as [? _]. discriminate. }
  rewrite !elem_of_app in Hin. destruct Hin as [Hin|[Hin|Hin]].
  { apply Hm in Hin as [? _]. discriminate. }
  { apply list_elem_of_singleton in Hin. discriminate. }
  destruct Hcase as [->|(req0 & suf & Hnew & -> & Hsuf)].
  { by apply elem_of_nil in Hin. }
  apply elem_of_cons in Hin as [Hin|Hin].
  - injection Hin as -> ->. by exists reqBody, req0.
  - rewrite Forall_forall in Hsuf. apply Hsuf in Hin as [? _]. discriminate.
Qed.

(** What [Send] does once the [Doer] has returned a response. *)
Lemma Send_received c method url payload respObj req resp :
  EvDo req (inl resp) ∈ events (Send c method url payload respObj) →
  (marshalPayload payload).1 = inl (http.ReqBody req)
  ∧ Send c method url payload respObj =
    let tr := ((marshalPayload payload).2
                 ++ [EvNewRequest method (ServiceAddress c +:+ url) (http.ReqBody req)])
                ++ [EvDo req (inl resp)] in
    if (http.StatusCode resp =? http.StatusNotFound)%Z
    then mkOutcome (Some EntityNotFoundErr) respObj (tr ++ [EvBodyClose])
    else handleResponse method url (http.ReqBody req) resp respObj tr.
Proof.
  intros Hin.
  apply Send_EvDo_inv in Hin as (reqBody & req0 & Hbody & Hnew & -> & Hres).
  pose proof (NewRequest_inl _ _ _ _ Hnew) as (_ & Hb & _). simpl. rewrite Hb.
  split; [done|]. unfold Send.
  destruct (marshalPayload payload) as [m tr0]; simpl in *. subst m.
  rewrite Hnew. cbv zeta. rewrite <- Hres. reflexivity.
Qed.

Lemma outside_2xx (sc : Z) :
  ((sc <? 200) || (299 <? sc))%Z = negb (bool_decide (200 ≤ sc ≤ 299)%Z).
Proof. case_bool_decide; lia. Qed.


(** C2, as amended.  The payload is marshalled first, and into the
    body of the request, unless it is nil: then nothing is marshalled
    and the body is empty.  Once the [Doer] has returned a response: a
    404 gives [EntityNotFoundErr]; another status outside 200-299, with
    a body that is read and decodes as an API error, gives that error
    carrying the status; a status in 200-299, with a body that is read
    and, for a non-nil [respObj], decodes, gives nil and the decoded
    value in [respObj].  A body that cannot be read, or that does not
    decode (as an API error outside 200-299, into [respObj] inside),
    gives the failure of the library, wrapped. *)
Theorem Send_response_handling c method url payload respObj :
  let o := Send c method url payload respObj in
  match payload with
  | Some p =>
      head (events o) = Some (EvMarshal p)
      ∧ ∀ req res, EvDo req res ∈ events o → json_Marshal p = inl (http.ReqBody req)
  | None =>
      Forall (λ e, isMarshal e = false) (events o)
      ∧ ∀ req res, EvDo req res ∈ events o → http.ReqBody req = ""
  end
  ∧ ∀ req resp, EvDo req (inl resp) ∈ events o →
    (http.StatusCode resp = 404 → err o = Some EntityNotFoundErr)
    ∧ (http.StatusCode resp ≠ 404 →
       ¬ (200 ≤ http.StatusCode resp ≤ 299)%Z →
       http.readErr (http.Body resp) = None →
       ∀ verr, json_UnmarshalAPIError (http.data (http.Body resp)) = (verr, None) →
       err o = Some (ErrAPI (apierror.withStatusCode verr (http.StatusCode resp))))
    ∧ ((200 ≤ http.StatusCode resp ≤ 299)%Z →
       http.readErr (http.Body resp) = None →
       match respObj with
       | None => err o = None ∧ out o = None
       | Some dst =>
           ∀ dst', json_Unmarshal (http.data (http.Body resp)) dst = (dst', None) →
           err o = None ∧ out o = Some dst'
       end)
    ∧ (http.StatusCode resp ≠ 404 →
       ∀ e, http.readErr (http.Body resp) = Some e →
       err o = Some (Wrapf e "HTTPClient.Send [ReadBody (Method: %s Path: %s Body: %s)]"
                       [ArgStr method; ArgStr url; ArgBytes (http.ReqBody req)]))
    ∧ (http.StatusCode resp ≠ 404 →
       ¬ (200 ≤ http.StatusCode resp ≤ 299)%Z →
       http.readErr (http.Body resp) = None →
       ∀ verr e, json_UnmarshalAPIError (http.data (http.Body resp)) = (verr, Some e) →
       err o = Some (Wrapf e
                       "CardsServiceClient.Send [UnmarshalResponseErr(status code: %v body: %s)]"
                       [ArgInt (http.StatusCode resp); ArgBytes (http.data (http.Body resp))]))
    ∧ ((200 ≤ http.StatusCode resp ≤ 299)%Z →
       http.readErr (http.Body resp) = None →
       ∀ dst dst' e, respObj = Some dst →
       json_Unmarshal (http.data (http.Body resp)) dst = (dst', Some e) →
       err o = Some (Wrapf e
                       "CardsServiceClient.Send [UnmarshalResponseErr(status code: %v body: %s)]"
                       [ArgInt (http.StatusCode resp); ArgBytes (http.data (http.Body resp))])).
Proof.
  intros o. split.
  - assert (Hbody : ∀ req res, EvDo req res ∈ events o →
                    (marshalPayload payload).1 = inl (http.ReqBody req)).
    { intros req res Hin.
      apply Send_EvDo_inv in Hin as (reqBody & req0 & Hb & Hnew & -> & _).
      apply NewRequest_inl in Hnew as (_ & <- & _). exact Hb. }
    destruct (Send_events c method url payload respObj)
      as [Hev|(reqBody & _ & ev & Hev & Hcase)]; fold o in Hev.
    + destruct payload as [p|]; simpl in *.
      * split; [by rewrite Hev|exact Hbody].
      * split; [rewrite Hev; constructor|].
        intros req res Hin. specialize (Hbody req res Hin). congruence.
    + destruct payload as [p|]; simpl in *.
      * split; [by rewrite Hev|exact Hbody].
      * split; [|intros req res Hin; specialize (Hbody req res Hin); congruence].
        rewrite Hev. constructor; [done|].
        destruct Hcase as [->|(req0 & suf & _ & -> & Hsuf)]; constructor; [done|].
        eapply Forall_impl; [exact Hsuf|]. by intros ? [_ ?].
  - intros req resp Hin.
    pose proof (Send_received _ _ _ _ _ _ _ Hin) as [_ Heq]. fold o in Heq.
    split; [|split; [|split; [|split; [|split]]]].
    + intros H404. rewrite Heq. cbv zeta. rewrite H404. reflexivity.
    + intros H404 Hout Hread verr Hdec. rewrite Heq. cbv zeta.
      destruct (Z.eqb_spec (http.StatusCode resp) http.StatusNotFound) as [?|_]; [done|].
      unfold handleResponse, ReadAll. rewrite Hread.
      rewrite outside_2xx, bool_decide_eq_false_2 by done. simpl.
      rewrite Hdec. reflexivity.
    + intros H2xx Hread. rewrite Heq. cbv zeta.
      destruct (Z.eqb_spec (http.StatusCode resp) http.StatusNotFound) as [E|_];
        [unfold http.StatusNotFound in E; lia|].
      unfold handleResponse, ReadAll. rewrite Hread.
      rewrite outside_2xx, bool_decide_eq_true_2 by done. simpl.
      destruct respObj as [dst|]; [|done].
      intros dst' Hdec. rewrite Hdec. done.
    + intros H404 e Hread. rewrite Heq. cbv zeta.
      destruct (Z.eqb_spec (http.StatusCode resp) http.StatusNotFound) as [?|_]; [done|].
      unfold handleResponse, ReadAll. rewrite Hread. reflexivity.
    + intros H404 Hout Hread verr e Hdec. rewrite Heq. cbv zeta.
      destruct (Z.eqb_spec (http.StatusCode resp) http.StatusNotFound) as [?|_]; [done|].
      unfold handleResponse, ReadAll. rewrite Hread.
      rewrite outside_2xx, bool_decide_eq_false_2 by done. simpl.
      rewrite Hdec. reflexivity.
    + intros H2xx Hread dst dst' e -> Hdec. rewrite Heq. cbv zeta.
      destruct (Z.eqb_spec (http.StatusCode resp) http.StatusNotFound) as [E|_];
        [unfold http.StatusNotFound in E; lia|].
      unfold handleResponse, ReadAll. rewrite Hread.
      rewrite outside_2xx, bool_decide_eq_true_2 by done. simpl.
      rewrite Hdec. reflexivity.
Qed.




(** C10.  Every request [Send] hands to the [Doer] has the content
    type application/json, and an empty body when the payload is nil. *)
Theorem Send_request_is_json c method url payload respObj req res :
  EvDo req res ∈ events (Send c method url payload respObj) →
  http.Header.Get (http.ReqHeader req) "content-type" = "application/json"
  ∧ http.ReqHeader req !! "Content-Type" = Some ["application/json"]
  ∧ (payload = None → http.ReqBody req = "").
Proof.
  intros Hin. apply Send_EvDo_inv in Hin as (reqBody & req0 & Hbody & Hnew & -> & _).
  apply NewRequest_inl in Hnew as (Hhdr & Hb & _).
  assert (Hh : http.ReqHeader (jsonRequest req0) !! "Content-Type" = Some ["application/json"]).
  { simpl. rewrite Hhdr. unfold http.Header.Add.
    change (http.CanonicalMIMEHeaderKey "content-type") with "Content-Type".
    by rewrite lookup_insert_eq, lookup_empty. }
  split; [|split; [done|]].
  - unfold http.Header.Get.
    change (http.CanonicalMIMEHeaderKey "content-type") with "Content-Type".
    by rewrite Hh.
  - intros ->. simpl in *. injection Hbody as <-. done.
Qed.

End WithLib.
End httpclient_facts.

(** * Properties of the service *)

Module corekit_facts.
Import server corekit.

Section WithWorld.
Context {World : Type} {LoggerT : Type} `{GoLib}.
Variable promhttp_Handler : @Handler World LoggerT.

Local Abbreviation Handler := (@Handler World LoggerT).
Local Abbreviation ServeMux := (@ServeMux World LoggerT).
Local Abbreviation Route := (@Route World LoggerT).
Local Abbreviation service := (@service World LoggerT).

(** *** The router contract *)

Lemma addAll_table (rs extra : list Route) addf servef :
  addf = (fun (rs : list Route) meth pat h => rs ++ [mkRoute meth pat h]) →
  addAll (mkServeMux (list Route) rs addf servef) extra
  = mkServeMux (list Route) (rs ++ extra) addf servef.
Proof.
  intros ->. revert rs. induction extra as [|rt extra IH]; intros rs; simpl.
  - by rewrite app_nil_r.
  - unfold Add. simpl. rewrite IH. destruct rt. simpl.
    by rewrite <- app_assoc.
Qed.

Lemma adoptPatRouter_adopts : adopts (@adoptPatRouter World LoggerT) [].
Proof.
  intros extra world r w. unfold adoptPatRouter.
  rewrite addAll_table by reflexivity. reflexivity.
Qed.

Lemma adopts_Add (m : ServeMux) rs meth pat h :
  adopts m rs → adopts (Add m meth pat h) (rs ++ [mkRoute meth pat h]).
Proof.
  intros Hm extra world r w. rewrite <- app_assoc. simpl.
  exact (Hm (mkRoute meth pat h :: extra) world r w).
Qed.

Lemma adopts_serves (m : ServeMux) rs world r w :
  adopts m rs → ServeHTTP m world r w = dispatch rs world r w.
Proof. intros Hm. specialize (Hm [] world r w). by rewrite app_nil_r in Hm. Qed.

Lemma find_noMatch (rs rest : list Route) meth path :
  noMatch rs meth path →
  List.find (fun rt => routeMatches rt meth path) (rs ++ rest)
  = List.find (fun rt => routeMatches rt meth path) rest.
Proof.
  induction 1 as [|rt rs Hrt _ IH]; simpl; [done|]. by rewrite Hrt.
Qed.

Lemma dispatch_first_match (rs rest : list Route) rt world r w :
  noMatch rs (http.Method r) (http.URL r) →
  routeMatches rt (http.Method r) (http.URL r) = true →
  dispatch (rs ++ rt :: rest) world r w = route_handler rt world r w.
Proof.
  intros Hno Hrt. unfold dispatch. rewrite find_noMatch by done.
  simpl. by rewrite Hrt.
Qed.

Lemma matchSegments_refl ps : matchSegments ps ps = true.
Proof.
  induction ps as [|p ps IH]; simpl; [done|].
  rewrite IH, String.eqb_refl. by rewrite orb_true_r.
Qed.

Lemma routeMatches_own meth pat (h : Handler) :
  routeMatches (mkRoute meth pat h) meth pat = true.
Proof.
  unfold routeMatches, matchPattern. simpl.
  by rewrite String.eqb_refl, matchSegments_refl.
Qed.

(** A handler registered on a router that holds no earlier match for
    its method and path serves the requests for them. *)
Lemma register_serves (m : ServeMux) rs meth path h world r w :
  adopts m rs → noMatch rs meth path →
  http.Method r = meth → http.URL r = path →
  ServeHTTP (Add m meth path h) world r w = h world r w.
Proof.
  intros Hm Hno <- <-.
  rewrite (adopts_serves _ _ _ _ _ (adopts_Add _ _ _ _ h Hm)).
  rewrite (dispatch_first_match rs [] (mkRoute _ _ h)); [done|done|].
  apply routeMatches_own.
Qed.

(** *** The built-in endpoints *)

Lemma NewService_adopts l opts rs :
  adopts (serveMux (applyOptions l opts)) rs →
  adopts (serveMux (options (NewService promhttp_Handler l opts)))
         (rs ++ [mkRoute "GET" "/health" healthHandler;
                 mkRoute "GET" "/info" (infoHandler (applyOptions l opts));
                 mkRoute "GET" "/metrics" promhttp_Handler]).
Proof.
  intros Hm. unfold NewService. simpl.
  change (rs ++ ?a :: ?b :: ?c :: nil) with (rs ++ [a] ++ [b] ++ [c]).
  rewrite !app_assoc. by do 3 apply adopts_Add.
Qed.

(** C4.  Whatever the options, on a router that holds no earlier route
    for it, a GET /health is answered by status 200 with no header and
    an empty body; the handler has no effect and consults neither the
    options nor the world. *)
Theorem health_is_200_and_empty l opts rs world r :
  adopts (serveMux (applyOptions l opts)) rs →
  noMatch rs "GET" "/health" →
  http.Method r = "GET" →
  http.URL r = "/health" →
  serve (NewService promhttp_Handler l opts) world r = mkReply 200 ∅ ""
  ∧ ServeHTTP (serveMux (options (NewService promhttp_Handler l opts)))
      world r newResponseWriter
    = (WriteHeader 200 newResponseWriter, []).
Proof.
  intros Hm Hno Hmeth Hurl.
  assert (Hs : ServeHTTP (serveMux (options (NewService promhttp_Handler l opts)))
                 world r newResponseWriter
               = healthHandler world r newResponseWriter).
  { rewrite (adopts_serves _ _ _ _ _ (NewService_adopts l opts rs Hm)).
    apply (dispatch_first_match rs _ (mkRoute "GET" "/health" healthHandler)).
    - by rewrite Hmeth, Hurl.
    - by rewrite Hmeth, Hurl. }
  split; [|exact Hs]. unfold serve. rewrite Hs. reflexivity.
Qed.

Lemma infoValue_fields (o : @Options World LoggerT) world :
  ∃ m dp, infoValue o world = VMap m
    ∧ dom m = ({["name"; "version"; "params"; "dependencies"]} : gset string)
    ∧ m !! "name" = Some (VString (name o))
    ∧ m !! "version" = Some (VString (version o))
    ∧ m !! "params" = Some (VMap (VString <$> params o))
    ∧ m !! "dependencies" = Some (VMap dp)
    ∧ dom dp = dom (dependenciesInfo o)
    ∧ ∀ n, dp !! n = (fun d => d world) <$> (dependenciesInfo o !! n).
Proof.
  eexists _, _. split; [reflexivity|]. split.
  { rewrite !dom_insert_L, dom_empty_L. set_solver. }
  repeat split.
  - apply dom_fmap_L.
  - intros n. apply lookup_fmap.
Qed.

(** C3, as amended.  On a router that holds no earlier route for it, a
    GET /info is answered by status 200 and content type
    application/json.  The value encoded has exactly the fields name,
    version, params and dependencies; dependencies has exactly the
    configured probe names, each with the result of its probe on the
    world of the request.  The body is the encoding of that value and a
    newline when the value has an encoding, and is empty when it has
    none. *)
Theorem info_reply l opts rs world r :
  let o := applyOptions l opts in
  let reply := serve (NewService promhttp_Handler l opts) world r in
  adopts (serveMux o) rs →
  noMatch rs "GET" "/info" →
  http.Method r = "GET" →
  http.URL r = "/info" →
  code reply = 200
  ∧ headers reply !! "Content-Type" = Some ["application/json"]
  ∧ body reply = match json_Marshal (infoValue o world) with
                 | inl b => b +:+ String (ascii_of_nat 10) ""
                 | inr _ => ""
                 end
  ∧ ∃ m dp, infoValue o world = VMap m
    ∧ dom m = ({["name"; "version"; "params"; "dependencies"]} : gset string)
    ∧ m !! "name" = Some (VString (name o))
    ∧ m !! "version" = Some (VString (version o))
    ∧ m !! "params" = Some (VMap (VString <$> params o))
    ∧ m !! "dependencies" = Some (VMap dp)
    ∧ dom dp = dom (dependenciesInfo o)
    ∧ ∀ n, dp !! n = (fun d => d world) <$> (dependenciesInfo o !! n).
Proof.
  intros o reply Hm Hno Hmeth Hurl.
  assert (Hs : ServeHTTP (serveMux (options (NewService promhttp_Handler l opts)))
                 world r newResponseWriter
               = infoHandler o world r newResponseWriter).
  { rewrite (adopts_serves _ _ _ _ _ (NewService_adopts l opts rs Hm)).
    change (rs ++ ?a :: ?rest) with (rs ++ [a] ++ rest). rewrite app_assoc.
    apply (dispatch_first_match _ _ (mkRoute "GET" "/info" (infoHandler o))).
    - rewrite Hmeth, Hurl. apply Forall_app. split; [done|]. by repeat constructor.
    - by rewrite Hmeth, Hurl. }
  assert (Hr : reply = finish (infoHandler o world r newResponseWriter).1).
  { subst reply. unfold serve. by rewrite Hs. }
  rewrite Hr. unfold infoHandler, Encode. simpl.
  destruct (json_Marshal (infoValue o world)) as [b|e]; simpl;
    (split; [reflexivity|]); (split; [reflexivity|]); (split; [reflexivity|]);
    apply infoValue_fields.
Qed.

(** *** Registration *)

(** C7.  [Get], [Post], [Put] and [Del] add to the router's routes one
    for GET, POST, PUT and DELETE at the path, whose handler is the
    domain handler under the API wrapper; [Stream] adds one for GET
    whose handler is the stream handler under the streaming wrapper.  In
    a service made by [NewService] the two wrappers are
    [wrapAPIHandler] and [streamWrapAPIHandler] with the configured
    logger. *)
Theorem registration_methods (s : service) rs path (h : APIHandler) (sh : StreamAPIHandler) :
  adopts (serveMux (options s)) rs →
  adopts (serveMux (options (Get s path h)))
         (rs ++ [mkRoute "GET" path (wrapAPIHandler_ s h)])
  ∧ adopts (serveMux (options (Post s path h)))
           (rs ++ [mkRoute "POST" path (wrapAPIHandler_ s h)])
  ∧ adopts (serveMux (options (Put s path h)))
           (rs ++ [mkRoute "PUT" path (wrapAPIHandler_ s h)])
  ∧ adopts (serveMux (options (Del s path h)))
           (rs ++ [mkRoute "DELETE" path (wrapAPIHandler_ s h)])
  ∧ adopts (serveMux (options (Stream s path sh)))
           (rs ++ [mkRoute "GET" path (streamAPIHandler s sh)])
  ∧ (∀ l opts,
       wrapAPIHandler_ (NewService promhttp_Handler l opts)
       = wrapAPIHandler (logger (applyOptions l opts))
       ∧ streamAPIHandler (NewService promhttp_Handler l opts)
         = streamWrapAPIHandler (logger (applyOptions l opts)))
  ∧ (∀ world r,
       noMatch rs (http.Method r) path → http.URL r = path →
       (http.Method r = "GET" →
        serve (Get s path h) world r = finish (wrapAPIHandler_ s h world r newResponseWriter).1)
       ∧ (http.Method r = "POST" →
          serve (Post s path h) world r = finish (wrapAPIHandler_ s h world r newResponseWriter).1)
       ∧ (http.Method r = "PUT" →
          serve (Put s path h) world r = finish (wrapAPIHandler_ s h world r newResponseWriter).1)
       ∧ (http.Method r = "DELETE" →
          serve (Del s path h) world r = finish (wrapAPIHandler_ s h world r newResponseWriter).1)
       ∧ (http.Method r = "GET" →
          serve (Stream s path sh) world r = finish (streamAPIHandler s sh world r newResponseWriter).1)).
Proof.
  intros Hm.
  repeat (split; [by apply adopts_Add|]).
  split; [done|].
  intros world r Hno Hurl. unfold serve.
  unfold Get, Post, Put, Del, Stream, withMux, withServeMux, UseServeMux.
  cbn [options serveMux].
  repeat split; intros Hmeth.
  all: rewrite (register_serves _ rs _ _ _ world r newResponseWriter Hm).
  all: try done.
  all: rewrite Hmeth in Hno; exact Hno.
Qed.

(** *** The API wrapper *)

(** C8.  For a request whose body is a JSON text that decodes to [v],
    where [v] encodes to a text that decodes to [v] again, the wrapped
    echo handler answers with status 200, content type application/json
    and a body that decodes to [v]. *)
Theorem wrapAPIHandler_echo (l : LoggerT) (world : World) r v b :
  http.ReqBody r ≠ "" →
  json_Unmarshal (http.ReqBody r) VNil = (v, None) →
  json_Marshal v = inl b →
  json_Unmarshal b VNil = (v, None) →
  let reply := finish (wrapAPIHandler l echo world r newResponseWriter).1 in
  code reply = 200
  ∧ headers reply !! "Content-Type" = Some ["application/json"]
  ∧ json_Unmarshal (body reply) VNil = json_Unmarshal (http.ReqBody r) VNil
  ∧ (wrapAPIHandler l echo world r newResponseWriter).2 = [].
Proof.
  intros Hne Hdec Henc Hround reply. subst reply.
  unfold wrapAPIHandler, decodeInput, echo.
  apply String.eqb_neq in Hne. rewrite Hne, Hdec, Henc. simpl.
  change ("" +:+ b) with b. rewrite Hround. repeat split; reflexivity.
Qed.

(** *** Run *)

(** C6.  [Run] returns exactly when the listener has stopped: not
    while the server accepts connections without a failure, and once the
    watcher has shut the server down or the listener has failed.  It
    starts the listener once and never again.  When the listener stops
    with [ErrServerClosed], as after a graceful shutdown, no error is
    logged; when it stops with any other error, as when the port is in
    use, that error is logged once, as the last effect. *)
Theorem Run_returns_when_listener_stops (s : service) :
  (∀ listen, Run s listen = None ↔ listen = None)
  ∧ (∀ srv, accepting srv = true → Run s (listenResult srv None) = None)
  ∧ (∀ sig srv, sig = SIGINT ∨ sig = SIGTERM →
       ∃ tr, Run s (listenResult (onSignal s sig srv).1 None) = Some tr
             ∧ length (List.filter isListen tr) = 1%nat
             ∧ List.filter isErrorLog tr = [])
  ∧ (∀ srv e, e ≠ ErrServerClosed →
       ∃ tr, Run s (listenResult srv (Some e)) = Some tr
             ∧ length (List.filter isListen tr) = 1%nat
             ∧ List.filter isErrorLog tr
               = [Log (logger (options s)) "[ERROR] %+v\n" [LogErr e]]
             ∧ last tr = Some (Log (logger (options s)) "[ERROR] %+v\n" [LogErr e]))
  ∧ (∀ err, ∃ tr, Run s (Some err) = Some tr
       ∧ length (List.filter isListen tr) = 1%nat
       ∧ (err = None ∨ err = Some ErrServerClosed → List.filter isErrorLog tr = [])
       ∧ (∀ e, err = Some e → e ≠ ErrServerClosed →
            List.filter isErrorLog tr
            = [Log (logger (options s)) "[ERROR] %+v\n" [LogErr e]])).
Proof.
  assert (Herr : ∀ e, e ≠ ErrServerClosed →
            ∃ tr, Run s (Some (Some e)) = Some tr
              ∧ length (List.filter isListen tr) = 1%nat
              ∧ List.filter isErrorLog tr
                = [Log (logger (options s)) "[ERROR] %+v\n" [LogErr e]]
              ∧ last tr = Some (Log (logger (options s)) "[ERROR] %+v\n" [LogErr e])).
  { intros e He.
    assert (Hc : isErrServerClosed e = false) by (by destruct e).
    unfold Run. cbv zeta. rewrite Hc. eexists. split; [reflexivity|].
    destruct (httpsEnabled (options s)); simpl; auto. }
  assert (Hclosed : ∃ tr, Run s (Some (Some ErrServerClosed)) = Some tr
              ∧ length (List.filter isListen tr) = 1%nat
              ∧ List.filter isErrorLog tr = []).
  { eexists. split; [reflexivity|].
    destruct (httpsEnabled (options s)); simpl; auto. }
  split; [|split; [|split; [|split]]].
  - intros listen. destruct listen; simpl; split; intros Hx; done.
  - intros srv Hacc. unfold listenResult. by rewrite Hacc.
  - intros sig srv Hsig.
    assert (Hoff : accepting (onSignal s sig srv).1 = false).
    { unfold onSignal. destruct Hsig as [-> | ->]; reflexivity. }
    unfold listenResult. rewrite Hoff. exact Hclosed.
  - intros srv e He. exact (Herr e He).
  - intros err.
    destruct err as [e|].
    + destruct (isErrServerClosed e) eqn:Hc.
      * assert (e = ErrServerClosed) as -> by (by destruct e).
        destruct Hclosed as (tr & Hrun & Hl & Hlog).
        exists tr. split; [done|]. split; [done|]. split; [done|].
        intros e' He' Hne. by injection He' as <-.
      * assert (Hne : e ≠ ErrServerClosed) by (by intros ->).
        destruct (Herr e Hne) as (tr & Hrun & Hl & Hlog & _).
        exists tr. split; [done|]. split; [done|]. split.
        -- intros [Hx|Hx]; [discriminate|]. by injection Hx as ->.
        -- intros e' He' _. by injection He' as <-.
    + eexists. split; [reflexivity|].
      destruct (httpsEnabled (options s)); simpl;
        (split; [reflexivity|]); (split; [done|]); intros e He; discriminate.
Qed.

(** A signal that was not asked for does not wake the watcher. *)
Lemma onSignal_not_notified (s : service) (sig : Signal) (srv : ServerState) :
  sig ≠ SIGINT → sig ≠ SIGTERM → onSignal s sig srv = (srv, []).
Proof. intros Hint Hterm. destruct sig; done. Qed.

(** C1, as amended.  On SIGINT or SIGTERM the watcher calls
    [Shutdown] once, with a deadline of five seconds: the listener stops
    accepting, the requests that need at most five seconds finish, and
    the others are left running, in which case the deadline error is
    logged; no connection is closed by force.  Then the service is
    reported stopped. *)
Theorem watcher_graceful_shutdown (s : service) (sig : Signal) (srv : ServerState) :
  sig = SIGINT ∨ sig = SIGTERM →
  let srv' := (onSignal s sig srv).1 in
  let tr := (onSignal s sig srv).2 in
  let late := List.filter (fun d => 5 * Second <? d)%Z (inflight srv) in
  accepting srv' = false
  ∧ inflight srv' = map (fun d => d - 5 * Second)%Z late
  ∧ List.filter isShutdown tr = [ServerShutdown 5000000000]
  ∧ List.filter isErrorLog tr
    = match late with
      | [] => []
      | _ :: _ => [Log (logger (options s)) "[ERROR] %+v\n" [LogErr DeadlineExceeded]]
      end
  ∧ ∃ pre, tr = pre ++ [Log (logger (options s)) "[INFO] Service stoped\n" []; CtxCancel].
Proof.
  intros Hsig srv' tr late.
  assert (Hon : onSignal s sig srv = watcher s srv).
  { unfold onSignal. destruct Hsig as [-> | ->]; reflexivity. }
  subst srv' tr. rewrite Hon. unfold watcher, Shutdown. fold late.
  destruct late as [|d late']; simpl.
  - repeat split. by eexists [_; _].
  - repeat split. by eexists [_; _; _].
Qed.

End WithWorld.
End corekit_facts.

(** * The client on concrete inputs *)

Module client_examples.
Import httpclient httpclient_facts examples RefJSON.

(** C2, on the three cases of the spec: a 404, a 503 with a message
    and a 200 with a body of the shape of the destination; and on a 502
    whose body is no JSON text. *)
Lemma Send_response_handling_witness :
  err (@Send RefLib (mockClient (response 404 "")) "GET" "/cards/1" None (Some VNil))
  = Some EntityNotFoundErr
  ∧ err (@Send RefLib (mockClient (response 503 (lit "{'message':'x'}")))
           "GET" "/cards/1" None (Some VNil))
    = Some (ErrAPI (apierror.mkAPIError 503 0 "x"))
  ∧ (let o := @Send RefLib (mockClient (response 200 (lit "{'a':1}")))
                "GET" "/cards/1" None (Some (VStruct [("a", VNum 0)])) in
     err o = None ∧ out o = Some (VStruct [("a", VNum 1)]))
  ∧ err (@Send RefLib (mockClient (response 502 "<html>")) "GET" "/cards/1" None (Some VNil))
    = Some (Wrapf RefUnmarshal.syntaxError
              "CardsServiceClient.Send [UnmarshalResponseErr(status code: %v body: %s)]"
              [ArgInt 502; ArgBytes "<html>"]).
Proof.
  pose (req := jsonRequest (http.mkRequest "GET" "http://cards/cards/1" ∅ "")).
  split; [|split; [|split]].
  - destruct (@Send_response_handling RefLib (mockClient (response 404 ""))
                "GET" "/cards/1" None (Some VNil)) as (_ & Hresp).
    destruct (Hresp req (response 404 "")) as (H404 & _).
    + vm_compute. repeat constructor.
    + apply H404. reflexivity.
  - destruct (@Send_response_handling RefLib
                (mockClient (response 503 (lit "{'message':'x'}")))
                "GET" "/cards/1" None (Some VNil)) as (_ & Hresp).
    destruct (Hresp req (response 503 (lit "{'message':'x'}"))) as (_ & Hapi & _).
    + vm_compute. repeat constructor.
    + apply (Hapi ltac:(simpl; lia) ltac:(simpl; lia) eq_refl (apierror.mkAPIError 0 0 "x")).
      vm_compute. reflexivity.
  - destruct (@Send_response_handling RefLib (mockClient (response 200 (lit "{'a':1}")))
                "GET" "/cards/1" None (Some (VStruct [("a", VNum 0)]))) as (_ & Hresp).
    destruct (Hresp req (response 200 (lit "{'a':1}"))) as (_ & _ & H2xx & _).
    + vm_compute. repeat constructor.
    + apply (H2xx ltac:(simpl; lia) eq_refl). vm_compute. reflexivity.
  - destruct (@Send_response_handling RefLib (mockClient (response 502 "<html>"))
                "GET" "/cards/1" None (Some VNil)) as (_ & Hresp).
    destruct (Hresp req (response 502 "<html>")) as (_ & _ & _ & _ & Hbad & _).
    + vm_compute. repeat constructor.
    + apply (Hbad ltac:(simpl; lia) ltac:(simpl; lia) eq_refl (apierror.mkAPIError 0 0 "")).
      vm_compute. reflexivity.
Defined.

(** C2, counterexample.  A 204 with an empty body and a non-nil
    [respObj] gives an error, and a 502 whose body is not JSON gives a
    wrapped decoding error, not an API error. *)
Lemma Send_undecodable_body :
  err (@Send RefLib (mockClient (response 204 "")) "GET" "/cards/1" None (Some VNil))
  = Some (Wrapf RefUnmarshal.syntaxError
            "CardsServiceClient.Send [UnmarshalResponseErr(status code: %v body: %s)]"
            [ArgInt 204; ArgBytes ""])
  ∧ err (@Send RefLib (mockClient (response 502 "<html>")) "GET" "/cards/1" None (Some VNil))
    = Some (Wrapf RefUnmarshal.syntaxError
              "CardsServiceClient.Send [UnmarshalResponseErr(status code: %v body: %s)]"
              [ArgInt 502; ArgBytes "<html>"]).
Proof. split; vm_compute; reflexivity. Qed.





(** C10, on a call without payload. *)
Lemma Send_request_is_json_witness :
  let req := jsonRequest (http.mkRequest "GET" "http://cards/cards/1" ∅ "") in
  http.Header.Get (http.ReqHeader req) "content-type" = "application/json"
  ∧ http.ReqHeader req !! "Content-Type" = Some ["application/json"]
  ∧ http.ReqBody req = "".
Proof.
  intros req.
  assert (Hin : EvDo req (inl (response 200 (lit "{'a':1}")))
                ∈ events (@Send RefLib (mockClient (response 200 (lit "{'a':1}")))
                            "GET" "/cards/1" None None))
    by (vm_compute; repeat constructor).
  destruct (@Send_request_is_json RefLib _ _ _ _ _ _ _ Hin) as (Hget & Hhdr & Hbody).
  split; [exact Hget|]. split; [exact Hhdr|]. apply Hbody. reflexivity.
Defined.

End client_examples.

(** * The service on concrete inputs *)

Module service_examples.
Import server corekit corekit_facts examples RefJSON.

(** C4, on a service with a name, a probe and a port. *)
Lemma health_is_200_and_empty_witness :
  serve (@NewService bool string RefLib noMetrics "stdout"
           [Name "cards"; DependencyInfo "db" dbProbe; Port 8080])
        false (getRequest "/health")
  = mkReply 200 ∅ "".
Proof.
  apply (@health_is_200_and_empty bool string RefLib noMetrics "stdout"
           [Name "cards"; DependencyInfo "db" dbProbe; Port 8080] []
           false (getRequest "/health")).
  - exact adoptPatRouter_adopts.
  - constructor.
  - reflexivity.
  - reflexivity.
Defined.

(** C3, counterexample.  With a probe whose result has no JSON
    encoding the answer to GET /info has an empty body: no JSON text,
    and none of the four fields. *)
Lemma info_with_unencodable_probe :
  let reply := serve (@NewService bool string RefLib noMetrics "stdout"
                        [Name "cards"; DependencyInfo "db" funcProbe])
                     true (getRequest "/info") in
  code reply = 200 ∧ body reply = "" ∧ parse (body reply) = None.
Proof. repeat split; vm_compute; reflexivity. Qed.

(** C3, on a service whose probe reports the database. *)
Lemma info_reply_witness :
  let reply := serve (@NewService bool string RefLib noMetrics "stdout"
                        [Name "cards"; Version "1.0"; Param "env" "test";
                         DependencyInfo "db" dbProbe])
                     true (getRequest "/info") in
  code reply = 200
  ∧ headers reply !! "Content-Type" = Some ["application/json"]
  ∧ body reply
    = lit "{'dependencies':{'db':'ok'},'name':'cards','params':{'env':'test'},'version':'1.0'}"
      +:+ String (ascii_of_nat 10) "".
Proof.
  intros reply.
  destruct (@info_reply bool string RefLib noMetrics "stdout"
              [Name "cards"; Version "1.0"; Param "env" "test"; DependencyInfo "db" dbProbe]
              [] true (getRequest "/info"))
    as (Hcode & Hhdr & Hbody & _).
  - exact adoptPatRouter_adopts.
  - constructor.
  - reflexivity.
  - reflexivity.
  - split; [exact Hcode|]. split; [exact Hhdr|].
    subst reply. rewrite Hbody. vm_compute. reflexivity.
Defined.

(** C7, on a fresh service: a POST and a DELETE reach the handlers
    registered by [Post] and [Del]. *)
Lemma registration_methods_witness :
  let s := @NewService bool string RefLib noMetrics "stdout" [] in
  serve (Post s "/cards" echo) true (http.mkRequest "POST" "/cards" ∅ (lit "{'a':1}"))
  = mkReply 200 {["Content-Type" := ["application/json"]]} (lit "{'a':1}")
  ∧ serve (Del s "/cards/:id" echo) true (http.mkRequest "DELETE" "/cards/:id" ∅ "")
    = mkReply 200 {["Content-Type" := ["application/json"]]} "null".
Proof.
  intros s.
  pose proof (@NewService_adopts bool string RefLib noMetrics "stdout" [] []
                adoptPatRouter_adopts) as Hs.
  split.
  - destruct (@registration_methods bool string RefLib noMetrics s _ "/cards" echo
                (fun _ _ => ([], None)) Hs) as (_ & _ & _ & _ & _ & _ & Hserve).
    destruct (Hserve true (http.mkRequest "POST" "/cards" ∅ (lit "{'a':1}")))
      as (_ & Hpost & _).
    + repeat constructor.
    + reflexivity.
    + rewrite (Hpost eq_refl). vm_compute. reflexivity.
  - destruct (@registration_methods bool string RefLib noMetrics s _ "/cards/:id" echo
                (fun _ _ => ([], None)) Hs) as (_ & _ & _ & _ & _ & _ & Hserve).
    destruct (Hserve true (http.mkRequest "DELETE" "/cards/:id" ∅ ""))
      as (_ & _ & _ & Hdel & _).
    + repeat constructor.
    + reflexivity.
    + rewrite (Hdel eq_refl). vm_compute. reflexivity.
Defined.

(** C8, on an object with white space and unsorted keys. *)
Lemma wrapAPIHandler_echo_witness :
  let r := http.mkRequest "POST" "/echo" ∅ (lit "{'b': [true, null, 'x'], 'a': -7}") in
  let reply := finish (@wrapAPIHandler bool string RefLib "stdout" echo true r
                         newResponseWriter).1 in
  code reply = 200
  ∧ body reply = lit "{'a':-7,'b':[true,null,'x']}"
  ∧ @json_Unmarshal RefLib (body reply) VNil = @json_Unmarshal RefLib (http.ReqBody r) VNil.
Proof.
  intros r reply.
  destruct (@wrapAPIHandler_echo bool string RefLib "stdout" true r
              (VMap {["a" := VNum (-7); "b" := VSlice [VBool true; VNil; VString "x"]]})
              (lit "{'a':-7,'b':[true,null,'x']}"))
    as (Hcode & _ & Hdec & _).
  - discriminate.
  - vm_compute. reflexivity.
  - vm_compute. reflexivity.
  - vm_compute. reflexivity.
  - split; [exact Hcode|]. split; [vm_compute; reflexivity|exact Hdec].
Defined.

(** C1, counterexample.  A request that needs six seconds is still in
    flight when the watcher has finished: its connection has not been
    closed, which [Close] would have done. *)
Lemma watcher_leaves_late_request :
  let s := @NewService bool string RefLib noMetrics "stdout" [] in
  let srv := mkServerState true [6 * Second] in
  inflight (onSignal s SIGTERM srv).1 = [1 * Second]
  ∧ (onSignal s SIGTERM srv).2
    = [Log "stdout" "[INFO] Graceful shutdown...\n" [];
       ServerShutdown (5 * Second);
       Log "stdout" "[ERROR] %+v\n" [LogErr DeadlineExceeded];
       Log "stdout" "[INFO] Service stoped\n" [];
       CtxCancel]
  ∧ inflight (Close srv) = [].
Proof. repeat split; vm_compute; reflexivity. Qed.

(** C1, with two requests that finish within the deadline. *)
Lemma watcher_graceful_shutdown_witness :
  let s := @NewService bool string RefLib noMetrics "stdout" [] in
  let srv := mkServerState true [2 * Second; 4 * Second] in
  accepting (onSignal s SIGINT srv).1 = false
  ∧ inflight (onSignal s SIGINT srv).1 = []
  ∧ List.filter isShutdown (onSignal s SIGINT srv).2 = [ServerShutdown 5000000000].
Proof.
  intros s srv.
  destruct (watcher_graceful_shutdown s SIGINT srv (or_introl eq_refl))
    as (Hacc & Hin & Hsd & _).
  split; [exact Hacc|]. split; [|exact Hsd].
  rewrite Hin. vm_compute. reflexivity.
Defined.

End service_examples.

(** * Further properties of the client *)

Module client_more.
Import httpclient httpclient_facts.

(** The paths of [Send], with the payload and the events in sight. *)
Ltac send_leaves c method url payload respObj :=
  unfold Send, handleResponse, ReadAll, marshalPayload;
  destruct payload as [?p|];
  [destruct (json_Marshal _) as [?reqBody|?merr] eqn:?Hmarshal|];
  try (destruct (NewRequest method (ServiceAddress c +:+ url) _) as [?req0|?nerr] eqn:?Hnew;
   [cbv zeta; destruct (getDoer c (jsonRequest _)) as [?resp|?derr] eqn:?Hdo;
    [destruct (http.StatusCode _ =? http.StatusNotFound)%Z eqn:?H404;
     [|destruct (http.readErr (http.Body _)) eqn:?Hread;
       [|destruct (_ || _) eqn:?Hout;
         [destruct (json_UnmarshalAPIError _) as [? [?|]] eqn:?Hdec
         |destruct respObj as [?dst|];
          [destruct (json_Unmarshal _ _) as [? [?|]] eqn:?Hdec|]]]]|]|]);
  simpl.

(** Finds an event in a list that is written out. *)
Ltac event_here :=
  repeat first [apply list_elem_of_here | apply list_elem_of_further].

Section WithLib.
Context `{GoLib}.

(** The body of a response is closed exactly once, as the last thing
    [Send] does; without a response nothing is closed. *)
Theorem Send_closes_body_once c method url payload respObj :
  let o := Send c method url payload respObj in
  if existsb isReceived (events o)
  then List.filter isBodyClose (events o) = [EvBodyClose]
       ∧ last (events o) = Some EvBodyClose
  else List.filter isBodyClose (events o) = [].
Proof.
  intros o. subst o. send_leaves c method url payload respObj; auto.
Qed.

Lemma NewRequest_method method url body req :
  NewRequest method url body = inl req →
  http.Method req = (if String.eqb method "" then "GET" else method)
  ∧ http.URL req = url.
Proof.
  unfold NewRequest. intros Hreq.
  destruct (negb _); [discriminate|].
  destruct (url_Parse url); [discriminate|].
  injection Hreq as <-. done.
Qed.

(** Every request goes to the service address followed by the path,
    with the method of the call, or GET when that is empty. *)
Theorem Send_request_target c method url payload respObj req res :
  EvDo req res ∈ events (Send c method url payload respObj) →
  http.URL req = ServiceAddress c +:+ url
  ∧ http.Method req = (if String.eqb method "" then "GET" else method)
  ∧ EvNewRequest method (ServiceAddress c +:+ url) (http.ReqBody req)
    ∈ events (Send c method url payload respObj).
Proof.
  intros Hin. pose proof Hin as Hin'.
  apply Send_EvDo_inv in Hin as (reqBody & req0 & Hbody & Hnew & -> & _).
  pose proof (NewRequest_method _ _ _ _ Hnew) as [Hm Hu].
  pose proof (NewRequest_inl _ _ _ _ Hnew) as (_ & Hb & _).
  simpl. rewrite Hb. split; [done|]. split; [done|].
  destruct (Send_events c method url payload respObj)
    as [Hev|(reqBody' & Hbody' & ev & -> & _)].
  - rewrite Hev in Hin'. pose proof (marshalPayload_events payload) as Hf.
    rewrite Forall_forall in Hf. apply Hf in Hin' as [? _]. discriminate.
  - rewrite Hbody in Hbody'. injection Hbody' as <-.
    rewrite !elem_of_app. right. left. by apply list_elem_of_singleton.
Qed.

(** The [Doer] is called exactly once when the payload marshals and
    the request can be built, and not at all otherwise: then [Send]
    returns the wrapped failure, and a failed marshalling does not even
    build a request. *)
Theorem Send_calls_Doer_iff_request_built c method url payload respObj :
  let o := Send c method url payload respObj in
  match (marshalPayload payload).1 with
  | inr e =>
      err o = Some (Wrap e "HTTPClient.Send [JSON marshal payload]")
      ∧ List.filter isDo (events o) = []
      ∧ List.filter isNewRequest (events o) = []
  | inl reqBody =>
      match NewRequest method (ServiceAddress c +:+ url) reqBody with
      | inr e =>
          err o = Some (Wrapf e "HTTPClient.Send [Method: %s Path: %s ]"
                          [ArgStr method; ArgStr url])
          ∧ List.filter isDo (events o) = []
      | inl req =>
          List.filter isDo (events o)
          = [EvDo (jsonRequest req) (getDoer c (jsonRequest req))]
      end
  end.
Proof.
  intros o. subst o. unfold Send, handleResponse, ReadAll, marshalPayload.
  destruct payload as [p|]; simpl.
  - destruct (json_Marshal p) as [reqBody|merr]; simpl; [|done].
    destruct (NewRequest method _ reqBody) as [req0|nerr]; simpl; [|done].
    destruct (getDoer c (jsonRequest req0)) as [resp|derr] eqn:Hdo; [|done].
    destruct (_ =? _)%Z; [done|].
    destruct (http.readErr _); [done|].
    destruct (_ || _).
    + by destruct (json_UnmarshalAPIError _) as [? [?|]].
    + destruct respObj; [|done]. by destruct (json_Unmarshal _ _) as [? [?|]].
  - destruct (NewRequest method _ "") as [req0|nerr]; simpl; [|done].
    destruct (getDoer c (jsonRequest req0)) as [resp|derr] eqn:Hdo; [|done].
    destruct (_ =? _)%Z; [done|].
    destruct (http.readErr _); [done|].
    destruct (_ || _).
    + by destruct (json_UnmarshalAPIError _) as [? [?|]].
    + destruct respObj; [|done]. by destruct (json_Unmarshal _ _) as [? [?|]].
Qed.

(** [Send] returns nil only for a response with a status in 200-299
    whose body was read and, for a non-nil [respObj], decoded into
    it. *)
Theorem Send_nil_only_on_2xx c method url payload respObj :
  let o := Send c method url payload respObj in
  err o = None →
  ∃ req resp,
    EvDo req (inl resp) ∈ events o
    ∧ (200 ≤ http.StatusCode resp ≤ 299)%Z
    ∧ http.readErr (http.Body resp) = None
    ∧ match respObj with
      | None => out o = None
      | Some dst =>
          ∃ dst', json_Unmarshal (http.data (http.Body resp)) dst = (dst', None)
                  ∧ out o = Some dst'
      end.
Proof.
  intros o. subst o. send_leaves c method url payload respObj; intros Herr;
    try discriminate.
  all: eexists _, _; (split; [event_here|]).
  all: rewrite outside_2xx in Hout; apply negb_false_iff, bool_decide_eq_true_1 in Hout.
  all: repeat split; eauto; lia.
Qed.

(** An API error comes from a response whose status is neither 404
    nor in 200-299; it is the decoded body with that status written
    over its status code, and [respObj] is untouched. *)
Theorem Send_api_error_status c method url payload respObj a :
  let o := Send c method url payload respObj in
  err o = Some (ErrAPI a) →
  ∃ req resp verr,
    EvDo req (inl resp) ∈ events o
    ∧ json_UnmarshalAPIError (http.data (http.Body resp)) = (verr, None)
    ∧ a = apierror.withStatusCode verr (http.StatusCode resp)
    ∧ apierror.StatusCode a = http.StatusCode resp
    ∧ http.StatusCode resp ≠ 404
    ∧ ¬ (200 ≤ http.StatusCode resp ≤ 299)%Z
    ∧ out o = respObj.
Proof.
  intros o. subst o. send_leaves c method url payload respObj; intros Herr;
    try discriminate.
  all: injection Herr as <-.
  all: eexists _, _, _; (split; [event_here|]).
  all: rewrite outside_2xx in Hout; apply negb_true_iff, bool_decide_eq_false_1 in Hout.
  all: apply Z.eqb_neq in H404.
  all: repeat split; eauto.
Qed.

(** When the body of a response other than a 404 cannot be read, the
    failure is what [Send] returns, whatever the status: wrapped with
    the method, the path and the bytes of the request body.  Nothing is
    decoded and [respObj] is untouched. *)
Theorem Send_read_failure c method url payload respObj req resp e :
  let o := Send c method url payload respObj in
  EvDo req (inl resp) ∈ events o →
  http.StatusCode resp ≠ 404 →
  http.readErr (http.Body resp) = Some e →
  err o = Some (Wrapf e "HTTPClient.Send [ReadBody (Method: %s Path: %s Body: %s)]"
                  [ArgStr method; ArgStr url; ArgBytes (http.ReqBody req)])
  ∧ (marshalPayload payload).1 = inl (http.ReqBody req)
  ∧ out o = respObj
  ∧ Forall (λ ev, match ev with
                  | EvUnmarshal _ | EvUnmarshalError _ => False
                  | _ => True
                  end) (events o).
Proof.
  intros o Hin H404 Hread.
  pose proof (Send_received _ _ _ _ _ _ _ Hin) as [Hbody Heq].
  subst o. rewrite Heq. cbv zeta.
  destruct (Z.eqb_spec (http.StatusCode resp) http.StatusNotFound) as [?|_]; [done|].
  unfold handleResponse, ReadAll. rewrite Hread. simpl.
  split; [done|]. split; [done|]. split; [done|].
  rewrite !Forall_app. repeat split; repeat constructor.
  destruct payload; simpl; repeat constructor.
Qed.

End WithLib.

(** With a [Doer] set, the default client of the library plays no
    part: [Send] does the same whatever it is, and every call goes to
    the [Doer].  With no [Doer], every call goes to the default
    client. *)
Theorem Send_transport (L : GoLib) (dc : http.Request → http.Response + error)
    c method url payload respObj :
  match doer c with
  | Some d =>
      @Send (withDefaultClient L dc) c method url payload respObj
      = @Send L c method url payload respObj
      ∧ ∀ req res, EvDo req res ∈ events (@Send L c method url payload respObj) →
                   res = d req
  | None =>
      ∀ req res,
        EvDo req res ∈ events (@Send (withDefaultClient L dc) c method url payload respObj) →
        res = dc req
  end.
Proof.
  destruct (doer c) as [d|] eqn:Hd.
  - split.
    + unfold Send, getDoer. rewrite Hd. reflexivity.
    + intros req res Hin.
      apply Send_EvDo_inv in Hin as (_ & _ & _ & _ & _ & ->).
      unfold getDoer. by rewrite Hd.
  - intros req res Hin.
    apply Send_EvDo_inv in Hin as (_ & _ & _ & _ & _ & ->).
    unfold getDoer. by rewrite Hd.
Qed.

End client_more.

(** * Further properties of the service *)

Module service_more.
Import server corekit corekit_facts.

Section WithWorld.
Context {World : Type} {LoggerT : Type} `{GoLib}.
Variable promhttp_Handler : @Handler World LoggerT.

Local Abbreviation Options := (@Options World LoggerT).
Local Abbreviation OptionCall := (@OptionCall World LoggerT).
Local Abbreviation service := (@service World LoggerT).
Local Abbreviation Route := (@Route World LoggerT).
Local Abbreviation Registration := (@Registration World).

(** *** Options *)

Lemma applyFrom_fields (cs : list OptionCall) (o : Options) :
  let o' := fold_left (fun o f => f o) (map toOption cs) o in
  name o' = lastOf pickName (name o) cs
  ∧ version o' = lastOf pickVersion (version o) cs
  ∧ port o' = lastOf pickPort (port o) cs
  ∧ logger o' = lastOf pickLogger (logger o) cs
  ∧ httpsEnabled o' = httpsEnabled o || existsb isHttps cs
  ∧ (certFile o', keyFile o') = lastOf pickHttps (certFile o, keyFile o) cs
  ∧ serveMux o' = lastOf pickServeMux (serveMux o) cs
  ∧ dependenciesInfo o'
    = fold_left (fun m c => match c with
                            | CallDependencyInfo n f => <[n := f]> m
                            | _ => m
                            end) cs (dependenciesInfo o)
  ∧ params o'
    = fold_left (fun m c => match c with
                            | CallParam n val => <[n := val]> m
                            | _ => m
                            end) cs (params o).
Proof.
  revert o. induction cs as [|c cs IH]; intros o; simpl.
  - by rewrite orb_false_r.
  - destruct (IH (toOption c o)) as (Hn & Hv & Hp & Hl & Hh & Hc & Hm & Hd & Hpa).
    unfold lastOf in *. simpl.
    rewrite Hn, Hv, Hp, Hl, Hh, Hc, Hm, Hd, Hpa.
    destruct c; simpl; repeat split; try reflexivity.
    all: by rewrite ?orb_true_r, ?orb_false_r.
Qed.
(** The options are applied in the order of the calls.  For the name,
    the version, the port, the logger, the router and the certificate
    files the last call wins and the default stays without a call;
    HTTPS is on as soon as one call asks for it; probes and parameters
    are entered under their names, call after call. *)
Theorem options_in_order (l : LoggerT) (cs : list OptionCall) :
  let o := applyOptions l (map toOption cs) in
  name o = lastOf pickName "" cs
  ∧ version o = lastOf pickVersion "" cs
  ∧ port o = lastOf pickPort 0 cs
  ∧ logger o = lastOf pickLogger l cs
  ∧ httpsEnabled o = existsb isHttps cs
  ∧ (certFile o, keyFile o) = lastOf pickHttps ("", "") cs
  ∧ serveMux o = lastOf pickServeMux adoptPatRouter cs
  ∧ dependenciesInfo o = probesOf cs
  ∧ params o = paramsOf cs.
Proof. exact (applyFrom_fields cs (defaultOptions l)). Qed.

Lemma fold_probes_lookup (cs : list OptionCall) (m : gmap string (World → GoValue)) n :
  existsb (setsProbe n) cs = false →
  fold_left (fun m c => match c with
                        | CallDependencyInfo n f => <[n := f]> m
                        | _ => m
                        end) cs m !! n = m !! n.
Proof.
  revert m. induction cs as [|c cs IH]; intros m Hno; simpl in *; [done|].
  apply orb_false_iff in Hno as [Hc Hcs]. rewrite IH by done.
  destruct c; try done. simpl in Hc. apply String.eqb_neq in Hc.
  by rewrite lookup_insert_ne.
Qed.

Lemma fold_params_lookup (cs : list OptionCall) (m : gmap string string) n :
  existsb (setsParam n) cs = false →
  fold_left (fun m c => match c with
                        | CallParam n val => <[n := val]> m
                        | _ => m
                        end) cs m !! n = m !! n.
Proof.
  revert m. induction cs as [|c cs IH]; intros m Hno; simpl in *; [done|].
  apply orb_false_iff in Hno as [Hc Hcs]. rewrite IH by done.
  destruct c; try done. simpl in Hc. apply String.eqb_neq in Hc.
  by rewrite lookup_insert_ne.
Qed.

(** The dependencies and the parameters that /info reports: under a
    name, the probe or the value of the last call for that name; no
    entry for a name without a call. *)
Theorem info_reports_last_call (l : LoggerT) (cs pre post : list OptionCall) n world :
  let o := applyOptions l (map toOption cs) in
  ∃ m dp, infoValue o world = VMap m
    ∧ m !! "dependencies" = Some (VMap dp)
    ∧ m !! "params" = Some (VMap (VString <$> params o))
    ∧ (existsb (setsProbe n) cs = false → dp !! n = None)
    ∧ (existsb (setsParam n) cs = false → params o !! n = None)
    ∧ (∀ f, cs = pre ++ CallDependencyInfo n f :: post →
            existsb (setsProbe n) post = false → dp !! n = Some (f world))
    ∧ (∀ val, cs = pre ++ CallParam n val :: post →
              existsb (setsParam n) post = false → params o !! n = Some val).
Proof.
  intros o.
  destruct (options_in_order l cs) as (_ & _ & _ & _ & _ & _ & _ & Hd & Hp).
  fold o in Hd, Hp.
  eexists _, _. split; [reflexivity|]. split; [reflexivity|]. split; [reflexivity|].
  rewrite Hd, Hp. unfold probesOf, paramsOf. repeat split.
  - intros Hno. by rewrite lookup_fmap, fold_probes_lookup, lookup_empty.
  - intros Hno. by rewrite fold_params_lookup, lookup_empty.
  - intros f -> Hno. rewrite lookup_fmap, fold_left_app. simpl.
    by rewrite fold_probes_lookup, lookup_insert_eq.
  - intros val -> Hno. rewrite fold_left_app. simpl.
    by rewrite fold_params_lookup, lookup_insert_eq.
Qed.

(** *** Run *)

(** [Run] listens on the port of the last [Port] call, 0 without one;
    with TLS and the files of the last [Https] call when there is one,
    in the clear otherwise.  Its first effect is the start message, to
    the logger of the last [Logger] call, the default one without. *)
Theorem Run_listens_as_configured (l : LoggerT) (cs : list OptionCall)
    (err : option error) :
  let s := NewService promhttp_Handler l (map toOption cs) in
  let p := lastOf pickPort 0 cs in
  let addr := ":" +:+ itoa p in
  ∃ tr, Run s (Some err) = Some tr
    ∧ head tr = Some (Log (lastOf pickLogger l cs)
                          "[INFO] Start listening address :%v\n" [LogInt p])
    ∧ List.filter isListen tr
      = [if existsb isHttps cs
         then ListenAndServeTLS addr (lastOf pickHttps ("", "") cs).1
                                     (lastOf pickHttps ("", "") cs).2
         else ListenAndServe addr].
Proof.
  intros s p addr.
  destruct (options_in_order l cs) as (_ & _ & Hp & Hl & Hh & Hc & _).
  eexists. split; [reflexivity|]. subst s p addr.
  unfold NewService. cbn [options withMux withServeMux UseServeMux port logger
                          httpsEnabled certFile keyFile].
  rewrite <- Hp, <- Hl, <- Hh, <- Hc. split; [reflexivity|].
  cbn [fst snd].
  destruct (httpsEnabled _); destruct err as [e|]; try destruct (isErrServerClosed e);
    reflexivity.
Qed.

(** *** The exporter and the registrations *)

(** On a router that holds no earlier route for it, a GET /metrics is
    served by the handler of the metrics exporter and nothing else. *)
Theorem metrics_is_delegated (l : LoggerT) opts rs world r w :
  adopts (serveMux (applyOptions l opts)) rs →
  noMatch rs "GET" "/metrics" →
  http.Method r = "GET" →
  http.URL r = "/metrics" →
  ServeHTTP (serveMux (options (NewService promhttp_Handler l opts))) world r w
  = promhttp_Handler world r w.
Proof.
  intros Hm Hno Hmeth Hurl.
  rewrite (adopts_serves _ _ _ _ _ (NewService_adopts promhttp_Handler l opts rs Hm)).
  change (rs ++ ?a :: ?b :: ?c :: nil) with (rs ++ [a; b] ++ c :: nil).
  rewrite app_assoc.
  apply (dispatch_first_match _ [] (mkRoute "GET" "/metrics" promhttp_Handler)).
  - rewrite Hmeth, Hurl. apply Forall_app. split; [done|]. by repeat constructor.
  - by rewrite Hmeth, Hurl.
Qed.

Lemma register_frame (s : service) (reg : Registration) :
  wrapAPIHandler_ (register s reg) = wrapAPIHandler_ s
  ∧ streamAPIHandler (register s reg) = streamAPIHandler s
  ∧ serveMux (options (register s reg))
    = Add (serveMux (options s)) (route_method (routeOf s reg))
          (route_pattern (routeOf s reg)) (route_handler (routeOf s reg))
  ∧ ∀ mux, withServeMux (options (register s reg)) mux = withServeMux (options s) mux.
Proof. destruct reg; done. Qed.

Lemma registerAll_frame (regs : list Registration) (s : service) :
  wrapAPIHandler_ (registerAll s regs) = wrapAPIHandler_ s
  ∧ streamAPIHandler (registerAll s regs) = streamAPIHandler s
  ∧ ∀ mux, withServeMux (options (registerAll s regs)) mux = withServeMux (options s) mux.
Proof.
  revert s. induction regs as [|reg regs IH]; intros s; [done|].
  unfold registerAll in *. simpl.
  destruct (IH (register s reg)) as (-> & -> & Hmux).
  destruct (register_frame s reg) as (-> & -> & _ & Hmux').
  repeat split. intros mux. by rewrite Hmux, Hmux'.
Qed.

(** Registering routes changes the router and nothing else: the name,
    the version, the probes, the parameters, the port, the TLS files and
    the logger stay, so [Run] and the watcher do what they did
    before. *)
Theorem registrations_leave_Run (s : service) (regs : list Registration) :
  (∀ mux, withServeMux (options (registerAll s regs)) mux = withServeMux (options s) mux)
  ∧ (∀ listen, Run (registerAll s regs) listen = Run s listen)
  ∧ (∀ srv, watcher (registerAll s regs) srv = watcher s srv)
  ∧ (∀ sig srv, onSignal (registerAll s regs) sig srv = onSignal s sig srv)
  ∧ (∀ world, infoValue (options (registerAll s regs)) world
              = infoValue (options s) world).
Proof.
  destruct (registerAll_frame regs s) as (_ & _ & Hmux).
  pose proof (Hmux adoptPatRouter) as Ho.
  unfold withServeMux, UseServeMux in Ho.
  injection Ho as Hn Hv Hd Hp Hport Hc Hk Hh Hl.
  split; [done|]. split; [|split; [|split]].
  - intros listen. unfold Run. by rewrite Hport, Hl, Hh, Hc, Hk.
  - intros srv. unfold watcher. by rewrite Hl.
  - intros sig srv. unfold onSignal, watcher. by rewrite Hl.
  - intros world. unfold infoValue. by rewrite Hn, Hv, Hd, Hp.
Qed.

End WithWorld.
End service_more.

(** * The further properties on concrete inputs *)

Module more_examples.
Import httpclient httpclient_facts client_more examples RefJSON.
Import server corekit corekit_facts service_more.

(** A POST with a payload goes to the address followed by the path. *)
Lemma Send_request_target_witness :
  let req := jsonRequest (http.mkRequest "POST" "http://cards/cards" ∅ (lit "{'a':1}")) in
  http.URL req = "http://cards/cards" ∧ http.Method req = "POST".
Proof.
  intros req.
  assert (Hin : EvDo req (inl (response 201 ""))
                ∈ events (@Send RefLib (mockClient (response 201 "")) "POST" "/cards"
                            (Some (VStruct [("a", VNum 1)])) None))
    by (vm_compute; repeat constructor).
  destruct (@Send_request_target RefLib _ _ _ _ _ _ _ Hin) as (Hurl & Hmeth & _).
  split; [exact Hurl|exact Hmeth].
Defined.

(** A 201 without body and without destination gives nil. *)
Lemma Send_nil_only_on_2xx_witness :
  ∃ req resp,
    EvDo req (inl resp)
    ∈ events (@Send RefLib (mockClient (response 201 "")) "POST" "/cards"
                (Some (VStruct [("a", VNum 1)])) None)
    ∧ (200 ≤ http.StatusCode resp ≤ 299)%Z.
Proof.
  assert (Herr : err (@Send RefLib (mockClient (response 201 "")) "POST" "/cards"
                        (Some (VStruct [("a", VNum 1)])) None) = None)
    by (vm_compute; reflexivity).
  destruct (@Send_nil_only_on_2xx RefLib _ _ _ _ _ Herr) as (req & resp & Hin & H2xx & _).
  exists req, resp. split; [exact Hin|exact H2xx].
Defined.

(** A 422 whose body claims the status 200 gives an API error with the
    status 422. *)
Lemma Send_api_error_status_witness :
  let o := @Send RefLib (mockClient (response 422 (lit "{'code':7,'message':'bad'}")))
             "POST" "/cards" None None in
  err o = Some (ErrAPI (apierror.mkAPIError 422 7 "bad"))
  ∧ ∃ req resp, EvDo req (inl resp) ∈ events o ∧ http.StatusCode resp = 422.
Proof.
  intros o.
  assert (Herr : err o = Some (ErrAPI (apierror.mkAPIError 422 7 "bad")))
    by (vm_compute; reflexivity).
  destruct (@Send_api_error_status RefLib _ _ _ _ _ _ Herr)
    as (req & resp & verr & Hin & _ & _ & Hsc & _).
  split; [exact Herr|]. exists req, resp. split; [exact Hin|].
  symmetry. exact Hsc.
Defined.

(** A 500 whose body breaks off gives the read failure, with the
    payload among its arguments. *)
Lemma Send_read_failure_witness :
  let resp := http.mkResponse 500 (http.mkBody "{" (Some (ErrLib "io" "unexpected EOF"))) in
  let o := @Send RefLib (mockClient resp) "POST" "/cards"
             (Some (VStruct [("pin", VNum 1234)])) (Some VNil) in
  err o = Some (Wrapf (ErrLib "io" "unexpected EOF")
                  "HTTPClient.Send [ReadBody (Method: %s Path: %s Body: %s)]"
                  [ArgStr "POST"; ArgStr "/cards"; ArgBytes (lit "{'pin':1234}")])
  ∧ out o = Some VNil.
Proof.
  intros resp o.
  pose (req := jsonRequest (http.mkRequest "POST" "http://cards/cards" ∅ (lit "{'pin':1234}"))).
  destruct (@Send_read_failure RefLib (mockClient resp) "POST" "/cards"
              (Some (VStruct [("pin", VNum 1234)])) (Some VNil) req resp
              (ErrLib "io" "unexpected EOF")) as (Herr & _ & Hout & _).
  - vm_compute. repeat constructor.
  - simpl. lia.
  - reflexivity.
  - split; [exact Herr|exact Hout].
Defined.

(** A probe set twice and a parameter set once. *)
Lemma info_reports_last_call_witness :
  let cs := [CallDependencyInfo "db" funcProbe; CallParam "env" "test";
             CallDependencyInfo "db" dbProbe] in
  let o := @applyOptions bool string "stdout" (map toOption cs) in
  (∃ m dp, infoValue o true = VMap m
           ∧ m !! "dependencies" = Some (VMap dp)
           ∧ dp !! "db" = Some (VString "ok")
           ∧ dp !! "cache" = None)
  ∧ params o !! "env" = Some "test".
Proof.
  intros cs o. split.
  - destruct (@info_reports_last_call bool string "stdout" cs
                [CallDependencyInfo "db" funcProbe; CallParam "env" "test"] [] "db" true)
      as (m & dp & Hm & Hdp & _ & _ & _ & Hlast & _).
    destruct (@info_reports_last_call bool string "stdout" cs [] [] "cache" true)
      as (m' & dp' & Hm' & Hdp' & _ & Hnone & _).
    fold o in Hm, Hm'. rewrite Hm in Hm'. injection Hm' as <-.
    rewrite Hdp in Hdp'. injection Hdp' as <-.
    exists m, dp. split; [exact Hm|]. split; [exact Hdp|]. split.
    + apply (Hlast dbProbe); reflexivity.
    + apply Hnone. reflexivity.
  - destruct (@info_reports_last_call bool string "stdout" cs
                [CallDependencyInfo "db" funcProbe] [CallDependencyInfo "db" dbProbe]
                "env" true)
      as (_ & _ & _ & _ & _ & _ & _ & _ & Hparam).
    apply (Hparam "test"); reflexivity.
Defined.

(** An exporter that answers with a fixed text. *)
Lemma metrics_is_delegated_witness :
  let exporter : @Handler bool string := fun _ _ w => (Write "up 1" w, []) in
  serve (@NewService bool string RefLib exporter "stdout" [Name "cards"])
        true (getRequest "/metrics")
  = mkReply 200 ∅ "up 1".
Proof.
  intros exporter. unfold serve.
  rewrite (@metrics_is_delegated bool string RefLib exporter "stdout" [Name "cards"] []
             true (getRequest "/metrics") newResponseWriter).
  - reflexivity.
  - exact adoptPatRouter_adopts.
  - constructor.
  - reflexivity.
  - reflexivity.
Defined.

End more_examples.
